(** * Assignment3.JS: the art-collection query API

    A shallow embedding of [Assignment3.JS] (an Express application that
    serves three JSON files through one generic request pipeline,
    [handleApiRequest], and eleven route handlers), together with the
    properties of the pipeline and of the selectors.

    Layout:
    - [JS]: the part of the ECMAScript runtime the program relies on
      (values, numbers as binary64, strings, abrupt completions, and the
      built-ins [Number], [parseInt], [toLowerCase], [trim], [includes],
      [filter], [find], [some]);
    - [Express]: the response object and the console as explicit state,
      with a small state-and-exception monad;
    - [App]: the program itself, function by function;
    - [Spec], [Wide], [Sample]: the vocabulary of the properties, the
      country selectors over UTF-16 code units, and sample data;
    - the theorems. *)

From Stdlib Require Import ZArith List Bool Ascii String Lia.
From Stdlib Require Import Floats.SpecFloat.
Import ListNotations.

Set Warnings "-register-all".

Local Open Scope string_scope.
Local Open Scope Z_scope.

(* ===================================================================== *)
(** * The ECMAScript runtime                                              *)
(* ===================================================================== *)

Module JS.

(** ** Strings

    A JS string is a sequence of UTF-16 code units.  The embedding uses
    [string], read as the code units [0..255] (the Latin-1 block); on that
    range the case mapping and the white-space classes below are the ones
    of the language.  Beyond that range lower-casing is no longer a map of
    single units (a capital sigma at the end of a word becomes a final
    sigma): module [Wide] below runs the country selectors on such text. *)

Definition unit_of (c : ascii) : Z := Z.of_N (N_of_ascii c).

Definition ascii_of_Z (z : Z) : ascii := ascii_of_N (Z.to_N z).

Definition between (lo hi z : Z) : bool := (lo <=? z) && (z <=? hi).

(** WhiteSpace and LineTerminator code units: TAB, LF, VT, FF, CR, SP, NBSP. *)
Definition isWhiteSpace (c : ascii) : bool :=
  let u := unit_of c in between 9 13 u || (u =? 32) || (u =? 160).

Definition isDigit (c : ascii) : bool := between 48 57 (unit_of c).

(** Simple lower-case mapping: A-Z, and the Latin-1 capitals U+00C0..U+00DE
    except the multiplication sign U+00D7. *)
Definition toLowerUnit (c : ascii) : ascii :=
  let u := unit_of c in
  if between 65 90 u || between 192 214 u || between 216 222 u
  then ascii_of_Z (u + 32) else c.

(** [String.prototype.toLowerCase] *)
Fixpoint toLowerCase (s : string) : string :=
  match s with
  | EmptyString => EmptyString
  | String c r => String (toLowerUnit c) (toLowerCase r)
  end.

(** [TrimString(s, start)] *)
Fixpoint trimStart (s : string) : string :=
  match s with
  | String c r => if isWhiteSpace c then trimStart r else s
  | EmptyString => EmptyString
  end.

(** [TrimString(s, end)]: a trailing run of white space is dropped. *)
Fixpoint trimEnd (s : string) : string :=
  match s with
  | EmptyString => EmptyString
  | String c r =>
      match trimEnd r with
      | EmptyString => if isWhiteSpace c then EmptyString else String c EmptyString
      | r' => String c r'
      end
  end.

(** [String.prototype.trim] *)
Definition trim (s : string) : string := trimEnd (trimStart s).

(** [String.prototype.includes]: [q] occurs in [s] as a substring. *)
Fixpoint includes (s q : string) : bool :=
  prefix q s ||
  match s with
  | EmptyString => false
  | String _ r => includes r q
  end.

(** ** Numbers: IEEE 754 binary64

    A Number is a [spec_float] in its canonical form for precision 53 and
    maximal exponent 1024, which is what the conversions below produce. *)

Definition number := spec_float.

Definition prec : Z := 53.
Definition emax : Z := 1024.

Definition NaN : number := S754_nan.
Definition Infinity (neg : bool) : number := S754_infinity neg.
Definition zero (neg : bool) : number := S754_zero neg.

(** The Number value for an integer (round to nearest, ties to even). *)
Definition ofZ (z : Z) : number := binary_normalize prec emax z 0 false.

(** The Number value for the rational [p / q], [0 < p], [0 < q]: the
    quotient is computed to at least 64 bits and the remainder is kept as a
    sticky bit, so that the single rounding is the rounding of [p / q]. *)
Definition ofQ (neg : bool) (p q : Z) : number :=
  let t := Z.max 0 (64 + Z.log2 q - Z.log2 p) in
  let n := Z.shiftl p t in
  let m := n / q in
  let sticky := if n mod q =? 0 then 0 else 1 in
  let r := binary_normalize prec emax (2 * m + sticky) (- t - 1) false in
  if neg then SFopp r else r.

(** The Number value for [m * 10 ^ e], [0 <= m]. *)
Definition ofDecimal (neg : bool) (m e : Z) : number :=
  if m =? 0 then zero neg
  else if 0 <=? e then (if neg then SFopp (ofZ (m * 10 ^ e)) else ofZ (m * 10 ^ e))
  else ofQ neg m (10 ^ (- e)).

(** [x === y], [x <= y] and [x >= y] on Numbers. *)
Definition numEq (x y : number) : bool := SFeqb x y.
Definition numLe (x y : number) : bool := SFleb x y.
Definition numGe (x y : number) : bool := SFleb y x.

(** *** Reading digits *)

(** Value of a code unit as a digit in radix up to 36. *)
Definition digitValue (c : ascii) : option Z :=
  let u := unit_of c in
  if between 48 57 u then Some (u - 48)
  else if between 97 122 u then Some (u - 87)
  else if between 65 90 u then Some (u - 55)
  else None.

Definition isRadixDigit (R : Z) (c : ascii) : bool :=
  match digitValue c with Some d => d <? R | None => false end.

(** The longest prefix of radix-[R] digits, and what follows it. *)
Fixpoint spanDigits (R : Z) (s : string) : string * string :=
  match s with
  | String c r =>
      if isRadixDigit R c
      then let '(d, rest) := spanDigits R r in (String c d, rest)
      else (EmptyString, s)
  | EmptyString => (EmptyString, EmptyString)
  end.

(** Mathematical value of a digit string read in radix [R] after [acc]. *)
Fixpoint digitsValue (R : Z) (acc : Z) (s : string) : Z :=
  match s with
  | String c r =>
      digitsValue R (acc * R + match digitValue c with Some d => d | None => 0 end) r
  | EmptyString => acc
  end.

(** [parseInt(string, radix)] on a String argument; [radix] after ToInt32.
    The digits are read exactly. *)
Definition parseIntString (inputString : string) (radix : Z) : number :=
  let S0 := trimStart inputString in
  let '(neg, S1) :=
    match S0 with
    | String "-" r => (true, r)
    | String "+" r => (false, r)
    | _ => (false, S0)
    end in
  if negb (radix =? 0) && ((radix <? 2) || (36 <? radix)) then NaN
  else
    let stripPrefix := (radix =? 0) || (radix =? 16) in
    let '(R, S2) :=
      match S1 with
      | String "0" (String x r) =>
          if stripPrefix && ((x =? "x") || (x =? "X"))%char then (16, r)
          else (if radix =? 0 then 10 else radix, S1)
      | _ => (if radix =? 0 then 10 else radix, S1)
      end in
    let '(digits, _) := spanDigits R S2 in
    match digits with
    | EmptyString => NaN
    | _ =>
        let mathInt := digitsValue R 0 digits in
        if mathInt =? 0 then zero neg
        else ofZ (if neg then - mathInt else mathInt)
    end.

(** [StringToNumber]: the StringNumericLiteral grammar and its value. *)

Definition allDigits (R : Z) (s : string) : bool :=
  match spanDigits R s with
  | (String _ _, EmptyString) => true
  | _ => false
  end.

(** ExponentPart_opt at the end of a literal: [Some e], or [None] when the
    text is not an exponent part. *)
Definition exponentPart (s : string) : option Z :=
  match s with
  | EmptyString => Some 0
  | String c r =>
      if ((c =? "e") || (c =? "E"))%char then
        let '(neg, d) :=
          match r with
          | String "-" d => (true, d)
          | String "+" d => (false, d)
          | _ => (false, r)
          end in
        if allDigits 10 d
        then Some (if neg then - digitsValue 10 0 d else digitsValue 10 0 d)
        else None
      else None
  end.

(** StrUnsignedDecimalLiteral *)
Definition unsignedDecimal (neg : bool) (s : string) : number :=
  if (s =? "Infinity")%string then Infinity neg
  else
    let '(ip, r) := spanDigits 10 s in
    let '(fp, r') :=
      match r with
      | String "." r1 => spanDigits 10 r1
      | _ => (EmptyString, r)
      end in
    match ip, fp with
    | EmptyString, EmptyString => NaN
    | _, _ =>
        match exponentPart r' with
        | Some e =>
            ofDecimal neg (digitsValue 10 0 (ip ++ fp)) (e - Z.of_nat (String.length fp))
        | None => NaN
        end
    end.

Definition nonDecimal (R : Z) (digits : string) : number :=
  if allDigits R digits then
    (let v := digitsValue R 0 digits in if v =? 0 then zero false else ofZ v)
  else NaN.

Definition StringToNumber (str : string) : number :=
  match trim str with
  | EmptyString => zero false
  | String "0" (String x r) as s =>
      if ((x =? "x") || (x =? "X"))%char then nonDecimal 16 r
      else if ((x =? "o") || (x =? "O"))%char then nonDecimal 8 r
      else if ((x =? "b") || (x =? "B"))%char then nonDecimal 2 r
      else unsignedDecimal false s
  | String "-" r => unsignedDecimal true r
  | String "+" r => unsignedDecimal false r
  | s => unsignedDecimal false s
  end.

(** *** Number::toString (radix 10)

    For a finite positive [x]: the integers [n], [k], [s] with [k >= 1],
    [10^(k-1) <= s < 10^k], the Number value for [s * 10^(n-k)] equal to [x]
    and [k] as small as possible; of two candidates the one closer to [x]. *)

(** [x = p / q] for a positive finite [x]. *)
Definition ratio (m : positive) (e : Z) : Z * Z :=
  if 0 <=? e then (Z.pos m * 2 ^ e, 1) else (Z.pos m, 2 ^ (- e)).

(** [p / q < 10 ^ n] *)
Definition below_pow10 (p q n : Z) : bool :=
  if 0 <=? n then p <? q * 10 ^ n else p * 10 ^ (- n) <? q.

(** The least [n >= lo] with [p / q < 10 ^ n], searched over [fuel] steps. *)
Fixpoint decimalExponent (fuel : nat) (p q lo : Z) : Z :=
  match fuel with
  | O => lo
  | S f => if below_pow10 p q lo then lo else decimalExponent f p q (lo + 1)
  end.

(** The Number value for [s * 10 ^ e], [0 < s]. *)
Definition ofScaled (s e : Z) : number := ofDecimal false s e.

Definition sameNumber (x y : number) : bool :=
  match x, y with
  | S754_finite sx mx ex, S754_finite sy my ey =>
      Bool.eqb sx sy && Pos.eqb mx my && Z.eqb ex ey
  | _, _ => false
  end.

(** The candidate with [k] digits, if one denotes [x]: the pair [(s, n)]. *)
Definition shortestAt (x : number) (p q n k : Z) : option (Z * Z) :=
  let e := n - k in
  let '(p', q') := if 0 <=? e then (p, q * 10 ^ e) else (p * 10 ^ (- e), q) in
  let lo := p' / q' in
  let rem := p' mod q' in
  let hi := lo + 1 in
  let okLo := (0 <? lo) && sameNumber (ofScaled lo e) x in
  let okHi := sameNumber (ofScaled hi e) x in
  let pick (c : Z) := if c =? 10 ^ k then Some (1, n + 1) else Some (c, n) in
  if rem =? 0 then (if okLo then pick lo else None)
  else if okLo && okHi then
    (if 2 * rem <? q' then pick lo
     else if q' <? 2 * rem then pick hi
     else if Z.even lo then pick lo else pick hi)
  else if okLo then pick lo
  else if okHi then pick hi
  else None.

Fixpoint shortest (fuel : nat) (x : number) (p q n k : Z) : Z * Z :=
  match fuel with
  | O => (0, n)
  | S f =>
      match shortestAt x p q n k with
      | Some r => r
      | None => shortest f x p q n (k + 1)
      end
  end.

Definition digitChar (d : Z) : ascii := ascii_of_Z (48 + d).

(** Decimal digits of [z >= 0], most significant first, before [acc]. *)
Fixpoint digitsOf (fuel : nat) (z : Z) (acc : string) : string :=
  match fuel with
  | O => acc
  | S f =>
      let acc' := String (digitChar (z mod 10)) acc in
      if z <? 10 then acc' else digitsOf f (z / 10) acc'
  end.

Definition decimalOf (z : Z) : string :=
  digitsOf (S (Z.to_nat (Z.log2 z))) z EmptyString.

Fixpoint zeros (n : nat) : string :=
  match n with O => EmptyString | S m => String "0" (zeros m) end.

Definition takeStr (n : Z) (s : string) : string := substring 0 (Z.to_nat n) s.
Definition dropStr (n : Z) (s : string) : string :=
  substring (Z.to_nat n) (String.length s - Z.to_nat n) s.

Definition exponentSuffix (n : Z) : string :=
  "e" ++ (if 0 <=? n - 1 then "+" else "-") ++ decimalOf (Z.abs (n - 1)).

Definition positiveToString (x : number) (m : positive) (e : Z) : string :=
  let '(p, q) := ratio m e in
  let n0 := decimalExponent 700 p q (- 330) in
  let '(s, n) := shortest 17 x p q n0 1 in
  let ds := decimalOf s in
  let k := Z.of_nat (String.length ds) in
  if (k <=? n) && (n <=? 21) then ds ++ zeros (Z.to_nat (n - k))
  else if (0 <? n) && (n <=? 21) then takeStr n ds ++ "." ++ dropStr n ds
  else if (- 6 <? n) && (n <=? 0) then "0." ++ zeros (Z.to_nat (- n)) ++ ds
  else if k =? 1 then ds ++ exponentSuffix n
  else takeStr 1 ds ++ "." ++ dropStr 1 ds ++ exponentSuffix n.

Definition NumberToString (x : number) : string :=
  match x with
  | S754_nan => "NaN"
  | S754_zero _ => "0"
  | S754_infinity neg => if neg then "-Infinity" else "Infinity"
  | S754_finite neg m e =>
      (if neg then "-" else "") ++ positiveToString (S754_finite false m e) m e
  end.

(** ** Values

    What [JSON.parse] builds, and [undefined], which property reads and
    [find] produce.  An object keeps its properties in insertion order;
    [JSON.parse] has already resolved duplicate keys. *)

Inductive value : Type :=
| VUndefined
| VNull
| VBool (b : bool)
| VNum (n : number)
| VStr (s : string)
| VArr (elems : list value)
| VObj (props : list (string * value)).

(** ** Abrupt completions *)

Inductive exn : Type :=
| TypeError (msg : string)
| SyntaxError (msg : string)
| SystemError (code : string).

Inductive result (A : Type) : Type :=
| Ok (a : A)
| Throw (e : exn).

Arguments Ok {A} a.
Arguments Throw {A} e.

Definition rbind {A B} (r : result A) (k : A -> result B) : result B :=
  match r with
  | Ok a => k a
  | Throw e => Throw e
  end.

Declare Scope js_scope.
Delimit Scope js_scope with js.
Notation "'let*' x ':=' r 'in' k" := (rbind r (fun x => k))
  (at level 10, x name, r at level 100, k at level 200) : js_scope.
Local Open Scope js_scope.

(** ** Conversions and operators *)

(** [ToBoolean] *)
Definition ToBoolean (v : value) : bool :=
  match v with
  | VUndefined | VNull => false
  | VBool b => b
  | VNum n =>
      match n with
      | S754_zero _ | S754_nan => false
      | _ => true
      end
  | VStr s => match s with EmptyString => false | _ => true end
  | VArr _ | VObj _ => true
  end.

(** [a && b]: [b] is evaluated only when [a] completes with a truthy value;
    a falsy [a] is the value of the whole expression. *)
Definition andAlso (a b : result value) : result value :=
  let* x := a in
  if ToBoolean x then b else Ok x.

Notation "a &&& b" := (andAlso a b) (at level 40, left associativity) : js_scope.

(** [v === n] for a Number [n]. *)
Definition strictEqualsNumber (v : value) (n : number) : bool :=
  match v with
  | VNum m => numEq m n
  | _ => false
  end.

Fixpoint lookup (key : string) (props : list (string * value)) : option value :=
  match props with
  | [] => None
  | (k, v) :: rest => if String.eqb k key then Some v else lookup key rest
  end.

(** [v.key], for the property names the program reads ([Nationality],
    [GalleryCountry], [paintingID], [gallery], [galleryID], [artist],
    [artistID], [yearOfWork], [title], [details], [annotation],
    [dominantColors], [name]): none is inherited from a prototype and none
    is an index or [length], so a primitive, an array, and an object without
    the key all give [undefined]; [undefined] and [null] have no properties. *)
Definition get (v : value) (key : string) : result value :=
  match v with
  | VUndefined => Throw (TypeError ("Cannot read properties of undefined (reading '" ++ key ++ "')"))
  | VNull => Throw (TypeError ("Cannot read properties of null (reading '" ++ key ++ "')"))
  | VObj props =>
      match lookup key props with
      | Some x => Ok x
      | None => Ok VUndefined
      end
  | _ => Ok VUndefined
  end.

(** [ToString].  An array is joined with commas, [undefined] and [null]
    elements printing as the empty string.  A plain object prints as
    [[object Object]], unless it has an own [toString] property: that
    property is not callable, and [valueOf] gives back the object, so the
    conversion ends in a TypeError. *)
Fixpoint ToString (v : value) : result string :=
  match v with
  | VUndefined => Ok "undefined"
  | VNull => Ok "null"
  | VBool true => Ok "true"
  | VBool false => Ok "false"
  | VNum n => Ok (NumberToString n)
  | VStr s => Ok s
  | VArr elems =>
      let element (x : value) : result string :=
        match x with
        | VUndefined | VNull => Ok ""
        | _ => ToString x
        end in
      (fix join (l : list value) : result string :=
         match l with
         | [] => Ok ""
         | [x] => element x
         | x :: rest =>
             let* a := element x in
             let* b := join rest in
             Ok (a ++ "," ++ b)
         end) elems
  | VObj props =>
      match lookup "toString" props with
      | Some _ => Throw (TypeError "Cannot convert object to primitive value")
      | None => Ok "[object Object]"
      end
  end.

(** [ToNumber]; an object or array goes through its primitive, a String. *)
Definition ToNumber (v : value) : result number :=
  match v with
  | VUndefined => Ok NaN
  | VNull => Ok (zero false)
  | VBool true => Ok (ofZ 1)
  | VBool false => Ok (zero false)
  | VNum n => Ok n
  | VStr s => Ok (StringToNumber s)
  | VArr _ | VObj _ => let* s := ToString v in Ok (StringToNumber s)
  end.

(** [Number(v)] *)
Definition Number (v : value) : result number := ToNumber v.

(** [parseInt(v, radix)] *)
Definition parseInt (v : value) (radix : Z) : result number :=
  let* inputString := ToString v in
  Ok (parseIntString inputString radix).

(** ** Methods

    A method call [v.m(...)] finds [m] only where the prototype of [v] has
    it; a value parsed from JSON holds no function, so on every other
    receiver the call is a TypeError. *)

Definition notAFunction {A} (m : string) : result A :=
  Throw (TypeError (m ++ " is not a function")).

Definition noProperties {A} (v : value) (m : string) : result A :=
  Throw (TypeError ("Cannot read properties of " ++
                    (match v with VNull => "null" | _ => "undefined" end) ++
                    " (reading '" ++ m ++ "')")).

(** [v.toLowerCase()]; the result is a String. *)
Definition call_toLowerCase (v : value) : result string :=
  match v with
  | VStr s => Ok (toLowerCase s)
  | VUndefined | VNull => noProperties v "toLowerCase"
  | _ => notAFunction "toLowerCase"
  end.

(** The array loops: the callback runs on the elements in order and the
    first exception ends the loop. *)

Fixpoint filterList (cb : value -> result value) (l : list value) : result (list value) :=
  match l with
  | [] => Ok []
  | x :: rest =>
      let* selected := cb x in
      let* kept := filterList cb rest in
      Ok (if ToBoolean selected then x :: kept else kept)
  end.

Fixpoint findList (cb : value -> result value) (l : list value) : result value :=
  match l with
  | [] => Ok VUndefined
  | x :: rest =>
      let* testResult := cb x in
      if ToBoolean testResult then Ok x else findList cb rest
  end.

Fixpoint someList (cb : value -> result value) (l : list value) : result bool :=
  match l with
  | [] => Ok false
  | x :: rest =>
      let* testResult := cb x in
      if ToBoolean testResult then Ok true else someList cb rest
  end.

(** [v.filter(cb)] *)
Definition call_filter (v : value) (cb : value -> result value) : result value :=
  match v with
  | VArr l => let* kept := filterList cb l in Ok (VArr kept)
  | VUndefined | VNull => noProperties v "filter"
  | _ => notAFunction "filter"
  end.

(** [v.find(cb)] *)
Definition call_find (v : value) (cb : value -> result value) : result value :=
  match v with
  | VArr l => findList cb l
  | VUndefined | VNull => noProperties v "find"
  | _ => notAFunction "find"
  end.

(** [v.some(cb)] *)
Definition call_some (v : value) (cb : value -> result value) : result value :=
  match v with
  | VArr l => let* b := someList cb l in Ok (VBool b)
  | VUndefined | VNull => noProperties v "some"
  | _ => notAFunction "some"
  end.

End JS.

Import JS.
Local Open Scope js_scope.

(* ===================================================================== *)
(** * The host: Express response, console, file system                    *)
(* ===================================================================== *)

Module Express.

(** What is written to the response.  [Stringified v space] stands for the
    text [JSON.stringify(v, null, space)]. *)
Inductive body : Type :=
| Text (s : string)
| Stringified (v : value) (space : nat).

(** [JSON.stringify(data, null, space)] *)
Definition JSON_stringify (data : value) (space : nat) : body := Stringified data space.

Record response : Type := mkResponse {
  statusCode : Z;
  contentType : option string;
  sent : option body
}.

Inductive logEntry : Type :=
| Info (msg : string)
| Failure (msg : string) (error : exn).

Record world : Type := mkWorld {
  res : response;
  console : list logEntry
}.

(** A response nothing has been written to: status 200, no header, no body. *)
Definition freshResponse : response :=
  {| statusCode := 200; contentType := None; sent := None |}.

Definition initial : world := {| res := freshResponse; console := [] |}.

Record request : Type := mkRequest {
  url : string;
  params : list (string * string)
}.

(** [req.params.name] *)
Definition param (req : request) (name : string) : value :=
  match List.find (fun kv => String.eqb (fst kv) name) (params req) with
  | Some kv => VStr (snd kv)
  | None => VUndefined
  end.

(** What the program takes from its environment: the directory of the
    script, the file system, and the JSON parser. *)
Record host : Type := mkHost {
  dirname : string;
  fs_readFile : string -> result string;
  JSON_parse : string -> result value
}.

(** [path.join(a, b, c)]: the segments joined by the separator.  ([path.join]
    also normalises the result; the file system is a parameter of every
    statement, so nothing depends on the exact text of a path.) *)
Definition path_join (a b c : string) : string := a ++ "/" ++ b ++ "/" ++ c.

(** ** Computations: state and exceptions *)

Definition M (A : Type) : Type := world -> result A * world.

Definition ret {A} (a : A) : M A := fun w => (Ok a, w).

Definition bind {A B} (m : M A) (k : A -> M B) : M B :=
  fun w =>
    match m w with
    | (Ok a, w') => k a w'
    | (Throw e, w') => (Throw e, w')
    end.

Definition lift {A} (r : result A) : M A := fun w => (r, w).

(** [try { body } catch (error) { handler }] *)
Definition try_catch {A} (body : M A) (handler : exn -> M A) : M A :=
  fun w =>
    match body w with
    | (Ok a, w') => (Ok a, w')
    | (Throw e, w') => handler e w'
    end.

Declare Scope express_scope.
Delimit Scope express_scope with express.
Notation "x <- m ;; k" := (bind m (fun x => k))
  (at level 61, m at next level, right associativity) : express_scope.
Notation "m ;; k" := (bind m (fun _ => k))
  (at level 61, right associativity) : express_scope.
Local Open Scope express_scope.

Definition update_res (f : response -> response) : M unit :=
  fun w => (Ok tt, {| res := f (res w); console := console w |}).

(** [res.status(code)] *)
Definition res_status (code : Z) : M unit :=
  update_res (fun r => {| statusCode := code; contentType := contentType r; sent := sent r |}).

(** [res.setHeader('Content-Type', v)] *)
Definition res_setHeader_ContentType (v : string) : M unit :=
  update_res (fun r => {| statusCode := statusCode r; contentType := Some v; sent := sent r |}).

(** [res.send(b)]: the body goes out with the status and header set so far.
    (Express completes the Content-Type header by itself: it adds the
    charset, and a type when the program has set none.  The model records
    what the program sets.) *)
Definition res_send (b : body) : M unit :=
  update_res (fun r => {| statusCode := statusCode r; contentType := contentType r; sent := Some b |}).

(** [res.json(obj)]: the object is stringified and sent as JSON. *)
Definition res_json (obj : value) : M unit :=
  update_res (fun r => {| statusCode := statusCode r;
                          contentType := match contentType r with
                                         | Some t => Some t
                                         | None => Some "application/json"
                                         end;
                          sent := sent r |}) ;;
  res_send (JSON_stringify obj 0).

(** [console.log(msg)] *)
Definition console_log (msg : string) : M unit :=
  fun w => (Ok tt, {| res := res w; console := console w ++ [Info msg] |}).

(** [console.error(msg, error)] *)
Definition console_error (msg : string) (error : exn) : M unit :=
  fun w => (Ok tt, {| res := res w; console := console w ++ [Failure msg error] |}).

End Express.

Import Express.
Local Open Scope express_scope.

(* ===================================================================== *)
(** * The program                                                         *)
(* ===================================================================== *)

Module App.

Definition fileArtist : string := "artists.json".
Definition fileGallery : string := "galleries.json".
Definition filePaintings : string := "nested.json".

Definition formatJsonResponse (data : value) : body := JSON_stringify data 2.

Definition isUndefined (v : value) : bool :=
  match v with VUndefined => true | _ => false end.

(** [filteredData !== undefined &&
     (Array.isArray(filteredData) ? filteredData.length > 0 : true)] *)
Definition hasData (filteredData : value) : bool :=
  negb (isUndefined filteredData) &&
  match filteredData with
  | VArr elems => (0 <? List.length elems)%nat
  | _ => true
  end.

Definition selector : Type := value -> request -> result value.

Definition handleApiRequest (h : host) (directory filename : string)
    (filterFunction : selector) (errorMessage : string) (req : request) : M unit :=
  try_catch
    (let filePath := path_join (dirname h) directory filename in
     data <- lift (fs_readFile h filePath) ;;
     jsonData <- lift (JSON_parse h data) ;;
     filteredData <- lift (filterFunction jsonData req) ;;
     if hasData filteredData then
       let formattedData := formatJsonResponse filteredData in
       res_setHeader_ContentType "application/json" ;;
       res_send formattedData
     else
       console_log ("No data found for the specified criteria in " ++ url req) ;;
       res_status 404 ;;
       res_json (VObj [("error", VStr ("No data found for the specified criteria in " ++ url req))]))
    (fun error =>
       console_error (errorMessage ++ ":") error ;;
       res_status 500 ;;
       res_send (Text "Internal Server Error")).

(** ** The selectors ([filterFunction] of each route) *)

(** [/api/artists], [/api/galleries], [/api/paintings] *)
Definition selectAll : selector := fun data _ => Ok data.

(** [/api/artists/:country] *)
Definition artistsByCountry : selector := fun data req =>
  let* requestedNationality := call_toLowerCase (param req "country") in
  call_filter data (fun artist =>
    let* nationality := get artist "Nationality" in
    let* lowered := call_toLowerCase nationality in
    Ok (VBool (String.eqb lowered requestedNationality))).

(** [/api/galleries/:country] *)
Definition galleriesByCountry : selector := fun data req =>
  let* requestedCountry := call_toLowerCase (param req "country") in
  call_filter data (fun gallery =>
    let* country := get gallery "GalleryCountry" in
    let* lowered := call_toLowerCase country in
    Ok (VBool (String.eqb lowered requestedCountry))).

(** [/api/painting/:paintingID]; the id is converted before the selector
    is built. *)
Definition paintingById (requestedPaintingID : number) : selector := fun data _ =>
  let* foundPainting := call_find data (fun painting =>
    let* id := get painting "paintingID" in
    Ok (VBool (strictEqualsNumber id requestedPaintingID))) in
  Ok foundPainting.

(** [/api/painting/gallery/:galleryID]; the id is parsed before the
    selector is built. *)
Definition paintingsByGallery (requestedGalleryID : number) : selector := fun data _ =>
  call_filter data (fun painting =>
    get painting "gallery" &&&
    (let* gallery := get painting "gallery" in
     let* id := get gallery "galleryID" in
     Ok (VBool (strictEqualsNumber id requestedGalleryID)))).

(** [/api/painting/artist/:artistID] *)
Definition paintingsByArtist : selector := fun data req =>
  let* requestedArtistID := parseInt (param req "artistID") 10 in
  call_filter data (fun painting =>
    get painting "artist" &&&
    (let* artist := get painting "artist" in
     let* id := get artist "artistID" in
     Ok (VBool (strictEqualsNumber id requestedArtistID)))).

(** [parseInt(painting.yearOfWork, 10)] *)
Definition yearOf (painting : value) : result number :=
  let* year := get painting "yearOfWork" in
  parseInt year 10.

(** [/api/painting/year/:min/:max] *)
Definition paintingsByYear : selector := fun data req =>
  let* minYear := parseInt (param req "min") 10 in
  let* maxYear := parseInt (param req "max") 10 in
  call_filter data (fun painting =>
    get painting "yearOfWork" &&&
    (let* y := yearOf painting in Ok (VBool (numGe y minYear))) &&&
    (let* y := yearOf painting in Ok (VBool (numLe y maxYear)))).

(** [/api/painting/title/:text] *)
Definition paintingsByTitle : selector := fun data req =>
  let* searchText := call_toLowerCase (param req "text") in
  call_filter data (fun painting =>
    get painting "title" &&&
    (let* title := get painting "title" in
     let* lowered := call_toLowerCase title in
     Ok (VBool (includes lowered searchText)))).

(** [painting.details.annotation] *)
Definition annotationOf (painting : value) : result value :=
  let* details := get painting "details" in
  get details "annotation".

(** [painting.details.annotation.dominantColors] *)
Definition dominantColorsOf (painting : value) : result value :=
  let* annotation := annotationOf painting in
  get annotation "dominantColors".

(** The callback of [some]: does this dominant colour carry the name? *)
Definition colorMatches (searchColorName : string) (color : value) : result value :=
  let* name := get color "name" in
  let* lowerCaseColorName :=
    (if ToBoolean name then
       let* name' := get color "name" in
       let* lowered := call_toLowerCase name' in
       Ok (trim lowered)
     else Ok "") in
  Ok (VBool (includes lowerCaseColorName searchColorName)).

(** [/api/painting/color/:name] *)
Definition paintingsByColor : selector := fun data req =>
  let* searchColorName := call_toLowerCase (param req "name") in
  call_filter data (fun painting =>
    get painting "details" &&&
    annotationOf painting &&&
    dominantColorsOf painting &&&
    (let* colors := dominantColorsOf painting in
     call_some colors (colorMatches searchColorName))).

(** ** The route handlers *)

Definition handler : Type := host -> request -> M unit.

Definition getArtists : handler := fun h req =>
  handleApiRequest h (dirname h) fileArtist selectAll "No artists found" req.

Definition getArtistsByCountry : handler := fun h req =>
  handleApiRequest h (dirname h) fileArtist artistsByCountry
    "No artists found for the specified country" req.

Definition getGalleries : handler := fun h req =>
  handleApiRequest h (dirname h) fileGallery selectAll "No galleries found" req.

Definition getGalleriesByCountry : handler := fun h req =>
  handleApiRequest h (dirname h) fileGallery galleriesByCountry
    "No galleries found for the specified country" req.

Definition getPaintings : handler := fun h req =>
  handleApiRequest h (dirname h) filePaintings selectAll "Error getting paintings" req.

Definition readingFailed (error : exn) : M unit :=
  console_error "Error reading JSON file:" error ;;
  res_status 500 ;;
  res_send (Text "Internal Server Error").

Definition getPaintingById : handler := fun h req =>
  try_catch
    (requestedPaintingID <- lift (Number (param req "paintingID")) ;;
     handleApiRequest h (dirname h) filePaintings (paintingById requestedPaintingID)
       "Painting not found" req)
    readingFailed.

Definition getPaintingsByGallery : handler := fun h req =>
  try_catch
    (requestedGalleryID <- lift (parseInt (param req "galleryID") 10) ;;
     handleApiRequest h (dirname h) filePaintings (paintingsByGallery requestedGalleryID)
       "No paintings found for the specified galleryID" req)
    readingFailed.

Definition getPaintingsByArtist : handler := fun h req =>
  handleApiRequest h (dirname h) filePaintings paintingsByArtist
    "Error getting paintings by artist" req.

Definition getPaintingsByYear : handler := fun h req =>
  handleApiRequest h (dirname h) filePaintings paintingsByYear
    "Error getting paintings by year range" req.

Definition getPaintingsByTitle : handler := fun h req =>
  handleApiRequest h (dirname h) filePaintings paintingsByTitle
    "Error getting paintings by title" req.

Definition getPaintingsByColor : handler := fun h req =>
  handleApiRequest h (dirname h) filePaintings paintingsByColor
    "Error getting paintings by color" req.

(** The routes in registration order. *)
Definition routes : list (string * handler) :=
  [ ("/api/artists", getArtists);
    ("/api/artists/:country", getArtistsByCountry);
    ("/api/galleries", getGalleries);
    ("/api/galleries/:country", getGalleriesByCountry);
    ("/api/paintings", getPaintings);
    ("/api/painting/:paintingID", getPaintingById);
    ("/api/painting/gallery/:galleryID", getPaintingsByGallery);
    ("/api/painting/artist/:artistID", getPaintingsByArtist);
    ("/api/painting/year/:min/:max", getPaintingsByYear);
    ("/api/painting/title/:text", getPaintingsByTitle);
    ("/api/painting/color/:name", getPaintingsByColor) ].

(** The logging middleware, registered before every route ([app.use]):
    it writes the request line and hands over to [next].  [req.method] is
    passed beside the request. *)
Definition logRequests (method : string) (req : request) (next : M unit) : M unit :=
  console_log ("Received request: " ++ method ++ " " ++ url req) ;;
  next.

End App.

Import App.

(* ===================================================================== *)
(** * Vocabulary of the properties                                        *)
(* ===================================================================== *)

Module Spec.

(** The three outcomes of a request. *)
Inductive Outcome : Type :=
| Found (payload : value)
| NotFound
| Error.

(** The outcome a response carries: 200 with a stringified payload, 404,
    or 500. *)
Definition outcome (r : response) : option Outcome :=
  match statusCode r, sent r with
  | 200, Some (Stringified v _) => Some (Found v)
  | 404, Some _ => Some NotFound
  | 500, Some _ => Some Error
  | _, _ => None
  end.

(** The response of a handler to a request on a fresh response object. *)
Definition respond (hd : handler) (h : host) (req : request) : response :=
  res (snd (hd h req initial)).

(** Load, parse, select: what the pipeline computes before it answers. *)
Definition selected (h : host) (directory filename : string) (f : selector)
    (req : request) : result value :=
  let* data := fs_readFile h (path_join (dirname h) directory filename) in
  let* jsonData := JSON_parse h data in
  f jsonData req.

(** The dataset a route reads. *)
Definition dataset (h : host) (filename : string) : result value :=
  let* data := fs_readFile h (path_join (dirname h) (dirname h) filename) in
  JSON_parse h data.

(** The three ways the pipeline can fail. *)
Inductive Fault (h : host) (directory filename : string) (f : selector)
    (req : request) (e : exn) : Prop :=
| loading_fails :
    fs_readFile h (path_join (dirname h) directory filename) = Throw e ->
    Fault h directory filename f req e
| parsing_fails data :
    fs_readFile h (path_join (dirname h) directory filename) = Ok data ->
    JSON_parse h data = Throw e ->
    Fault h directory filename f req e
| selecting_fails data jsonData :
    fs_readFile h (path_join (dirname h) directory filename) = Ok data ->
    JSON_parse h data = Ok jsonData ->
    f jsonData req = Throw e ->
    Fault h directory filename f req e.

(** The classification rule in the words of the specification: a sequence
    is Found iff it is not empty; anything else is Found iff it is neither
    undefined nor null. *)
Definition resolve_spec (result : value) : Outcome :=
  match result with
  | VArr elems => if (0 <? List.length elems)%nat then Found result else NotFound
  | VUndefined | VNull => NotFound
  | _ => Found result
  end.

(** The responses the pipeline can leave behind. *)
Definition foundResponse (payload : value) (w : world) : world :=
  {| res := {| statusCode := statusCode (res w);
               contentType := Some "application/json";
               sent := Some (Stringified payload 2) |};
     console := console w |}.

Definition notFoundMessage (req : request) : string :=
  "No data found for the specified criteria in " ++ url req.

Definition notFoundResponse (req : request) (w : world) : world :=
  {| res := {| statusCode := 404;
               contentType := match contentType (res w) with
                              | Some t => Some t
                              | None => Some "application/json"
                              end;
               sent := Some (Stringified (VObj [("error", VStr (notFoundMessage req))]) 0) |};
     console := console w ++ [Info (notFoundMessage req)] |}.

Definition errorResponse (errorMessage : string) (e : exn) (w : world) : world :=
  {| res := {| statusCode := 500;
               contentType := contentType (res w);
               sent := Some (Text "Internal Server Error") |};
     console := console w ++ [Failure (errorMessage ++ ":") e] |}.

(** A request whose only path parameter is [name = v]. *)
Definition request1 (u name v : string) : request :=
  {| url := u; params := [(name, v)] |}.

(** ** The shape of the data *)

(** A record: an object, as the datasets hold them. *)
Definition isRecord (v : value) : bool :=
  match v with VObj _ => true | _ => false end.

(** The value of a field of a record, [undefined] when it is absent. *)
Definition field (key : string) (record : value) : value :=
  match get record key with
  | Ok v => v
  | Throw _ => VUndefined
  end.

(** Reading the field completes normally and gives a String. *)
Definition hasText (key : string) (record : value) : bool :=
  match get record key with
  | Ok (VStr _) => true
  | _ => false
  end.


(** The field is missing, [undefined] or [null]. *)
Definition lacks (key : string) (record : value) : bool :=
  match get record key with
  | Ok (VUndefined | VNull) => true
  | _ => false
  end.

(** Two texts that differ in letter case only: unit by unit they are equal
    or one is the lower case of the other. *)
Fixpoint differOnlyInCase (a b : string) : bool :=
  match a, b with
  | EmptyString, EmptyString => true
  | String x a', String y b' =>
      ((x =? y) || (toLowerUnit x =? y) || (x =? toLowerUnit y))%char &&
      differOnlyInCase a' b'
  | _, _ => false
  end.

(** The country test: the field is a String equal to [country] when both
    are put in lower case. *)
Definition countryIs (key country : string) (record : value) : bool :=
  match field key record with
  | VStr s => String.eqb (toLowerCase s) (toLowerCase country)
  | _ => false
  end.

(** The title test: the title is a String that contains [text], both in
    lower case. *)
Definition titleContains (text : string) (painting : value) : bool :=
  match field "title" painting with
  | VStr t => includes (toLowerCase t) (toLowerCase text)
  | _ => false
  end.

(** The name of a dominant colour, in lower case and trimmed; the empty
    string when there is none. *)
Definition colorName (color : value) : string :=
  match field "name" color with
  | VStr s => trim (toLowerCase s)
  | _ => EmptyString
  end.

Definition colorNameMatches (query : string) (color : value) : bool :=
  includes (colorName color) (toLowerCase query).

(** [details.annotation.dominantColors] of a painting, [undefined] where
    the chain breaks. *)
Definition dominantColors (painting : value) : value :=
  field "dominantColors" (field "annotation" (field "details" painting)).

(** The colour test: some dominant colour carries the name. *)
Definition hasColor (query : string) (painting : value) : bool :=
  match dominantColors painting with
  | VArr colors => existsb (colorNameMatches query) colors
  | _ => false
  end.

(** The name of a colour entry can be read: it is a String or falsy. *)
Definition nameReadable (color : value) : bool :=
  match get color "name" with
  | Ok (VStr _) => true
  | Ok v => negb (ToBoolean v)
  | Throw _ => false
  end.

(** The colours of a painting can be read: the painting is a record and
    its [dominantColors], when the chain reaches them, are falsy or an
    array of entries with readable names. *)
Definition colorsReadable (painting : value) : bool :=
  isRecord painting &&
  match dominantColors painting with
  | VArr colors => forallb nameReadable colors
  | c => negb (ToBoolean c)
  end.

(** The record carries the id [n]: [painting.paintingID === n]. *)
Definition hasId (n : number) (painting : value) : bool :=
  strictEqualsNumber (field "paintingID" painting) n.

(** [parseInt(painting.yearOfWork, 10)] completes normally. *)
Definition yearReadable (painting : value) : bool :=
  match yearOf painting with Ok _ => true | Throw _ => false end.

(** The year test of the code: a truthy [yearOfWork] whose integer reading
    lies in [lo .. hi], both ends included. *)
Definition inYearRange (lo hi : number) (painting : value) : bool :=
  ToBoolean (field "yearOfWork" painting) &&
  match yearOf painting with
  | Ok y => numGe y lo && numLe y hi
  | Throw _ => false
  end.

(** The year test in the words of the specification: [yearOfWork] is
    present and its integer reading lies in [lo .. hi]. *)
Definition inYearRange_spec (lo hi : number) (painting : value) : bool :=
  negb (isUndefined (field "yearOfWork" painting)) &&
  match yearOf painting with
  | Ok y => numLe lo y && numLe y hi
  | Throw _ => false
  end.

(** The request of the year route. *)
Definition yearRequest (u lo hi : string) : request :=
  {| url := u; params := [("min", lo); ("max", hi)] |}.

(** ** Path parameters *)


(** A non-empty run of decimal digits. *)
Definition isDigits (s : string) : bool := allDigits 10 s.


(** ** Further vocabulary *)

(** [undefined] or [null]: the values without properties. *)
Definition nullish (v : value) : bool :=
  match v with VUndefined | VNull => true | _ => false end.

Definition isArray (v : value) : bool :=
  match v with VArr _ => true | _ => false end.

(** [Number(req.params.key)], which completes normally on every request. *)
Definition numberParam (req : request) (key : string) : number :=
  match param req key with
  | VStr s => StringToNumber s
  | _ => NaN
  end.

(** [parseInt(req.params.key, 10)], which completes normally on every
    request. *)
Definition intParam (req : request) (key : string) : number :=
  match param req key with
  | VStr s => parseIntString s 10
  | _ => NaN
  end.

(** The gallery test of the code: a truthy [gallery] whose [galleryID] is
    the Number [n]. *)
Definition inGallery (n : number) (painting : value) : bool :=
  ToBoolean (field "gallery" painting) &&
  strictEqualsNumber (field "galleryID" (field "gallery" painting)) n.

(** The artist test of the code: a truthy [artist] whose [artistID] is the
    Number [n]. *)
Definition byArtist (n : number) (painting : value) : bool :=
  ToBoolean (field "artist" painting) &&
  strictEqualsNumber (field "artistID" (field "artist" painting)) n.

(** [k] is [l] with some elements left out, the others in their order. *)
Inductive Subsequence : list value -> list value -> Prop :=
| sub_nil : Subsequence [] []
| sub_keep x k l : Subsequence k l -> Subsequence (x :: k) (x :: l)
| sub_drop x k l : Subsequence k l -> Subsequence k (x :: l).

(** The selectors that filter, for a gallery id [n]. *)
Definition filterSelectors (n : number) : list selector :=
  [ artistsByCountry; galleriesByCountry; paintingsByGallery n; paintingsByArtist;
    paintingsByYear; paintingsByTitle; paintingsByColor ].

(** The routes that filter. *)
Definition filterRoutes : list handler :=
  [ getArtistsByCountry; getGalleriesByCountry; getPaintingsByGallery;
    getPaintingsByArtist; getPaintingsByYear; getPaintingsByTitle; getPaintingsByColor ].

(** The three shapes the status and the body of an answer can have: the
    stringified selection, which is neither [undefined] nor an empty array;
    the error object naming the request; the fixed text.  (The Content-Type
    header is left open: Express completes it when it sends.) *)
Inductive Answer (req : request) : response -> Prop :=
| answer_found v header :
    hasData v = true ->
    Answer req {| statusCode := 200; contentType := header;
                  sent := Some (Stringified v 2) |}
| answer_notFound header :
    Answer req {| statusCode := 404; contentType := header;
                  sent := Some (Stringified (VObj [("error", VStr (notFoundMessage req))]) 0) |}
| answer_error header :
    Answer req {| statusCode := 500; contentType := header;
                  sent := Some (Text "Internal Server Error") |}.



(** A world whose response is fresh and whose console holds [log]. *)
Definition after (log : list logEntry) : world :=
  {| res := freshResponse; console := log |}.

End Spec.

Import Spec.

(* ===================================================================== *)
(** * Text beyond Latin-1                                                 *)
(* ===================================================================== *)

(** The country selectors once more, over strings of UTF-16 code units, to
    run them on Greek text.  [toLowerCase] is given for words made of
    letters only (A-Z, a-z, and the Greek letters U+0391..U+03A9 and
    U+03B1..U+03C9): there every unit is a cased letter and none is
    case-ignorable, so a capital sigma is final exactly when it is the last
    unit of the word and not the first. *)

Module Wide.

Definition wstring : Type := list Z.

Definition isAsciiCapital (u : Z) : bool := between 65 90 u.
Definition isGreekCapital (u : Z) : bool := between 913 929 u || between 931 937 u.

Definition isLetter (u : Z) : bool :=
  isAsciiCapital u || between 97 122 u || isGreekCapital u || between 945 969 u.

Definition lettersOnly (s : wstring) : bool := forallb isLetter s.

(** The lower-case letter of a capital: 32 units up. *)
Definition lowerUnit (u : Z) : Z :=
  if isAsciiCapital u || isGreekCapital u then u + 32 else u.

Definition capitalSigma : Z := 931.
Definition smallSigma : Z := 963.
Definition finalSigma : Z := 962.

(** Lower case from left to right; [preceded] says that a letter comes
    before. *)
Fixpoint lowerFrom (preceded : bool) (s : wstring) : wstring :=
  match s with
  | [] => []
  | u :: r =>
      (if (u =? capitalSigma) && preceded && (match r with [] => true | _ => false end)
       then finalSigma
       else lowerUnit u) :: lowerFrom true r
  end.

(** [String.prototype.toLowerCase] on a word of letters. *)
Definition toLowerCase (s : wstring) : wstring := lowerFrom false s.

(** The code units of a Latin-1 string. *)
Definition ofString (s : string) : wstring := map unit_of (list_ascii_of_string s).

(** [a === b] on Strings. *)
Fixpoint sameText (a b : wstring) : bool :=
  match a, b with
  | [], [] => true
  | x :: a', y :: b' => (x =? y) && sameText a' b'
  | _, _ => false
  end.

(** Two words that differ in letter case only: unit by unit they are equal
    or one is the lower-case letter of the other. *)
Fixpoint differOnlyInCase (a b : wstring) : bool :=
  match a, b with
  | [], [] => true
  | x :: a', y :: b' =>
      ((x =? y) || (lowerUnit x =? y) || (x =? lowerUnit y)) && differOnlyInCase a' b'
  | _, _ => false
  end.

Inductive value : Type :=
| VUndefined
| VNull
| VStr (s : wstring)
| VArr (elems : list value)
| VObj (props : list (string * value)).

Fixpoint lookup (key : string) (props : list (string * value)) : option value :=
  match props with
  | [] => None
  | (k, v) :: rest => if String.eqb k key then Some v else lookup key rest
  end.

(** [v.key] *)
Definition get (v : value) (key : string) : result value :=
  match v with
  | VUndefined => Throw (TypeError ("Cannot read properties of undefined (reading '" ++ key ++ "')"))
  | VNull => Throw (TypeError ("Cannot read properties of null (reading '" ++ key ++ "')"))
  | VObj props =>
      match lookup key props with
      | Some x => Ok x
      | None => Ok VUndefined
      end
  | _ => Ok VUndefined
  end.

(** [v.toLowerCase()] *)
Definition call_toLowerCase (v : value) : result wstring :=
  match v with
  | VStr s => Ok (toLowerCase s)
  | VUndefined => Throw (TypeError "Cannot read properties of undefined (reading 'toLowerCase')")
  | VNull => Throw (TypeError "Cannot read properties of null (reading 'toLowerCase')")
  | _ => Throw (TypeError "toLowerCase is not a function")
  end.

(** The loop of [filter], for a callback whose result is a Boolean. *)
Fixpoint filterList (cb : value -> result bool) (l : list value) : result (list value) :=
  match l with
  | [] => Ok []
  | x :: rest =>
      let* selected := cb x in
      let* kept := filterList cb rest in
      Ok (if selected then x :: kept else kept)
  end.

(** [v.filter(cb)] *)
Definition call_filter (v : value) (cb : value -> result bool) : result value :=
  match v with
  | VArr l => let* kept := filterList cb l in Ok (VArr kept)
  | VUndefined => Throw (TypeError "Cannot read properties of undefined (reading 'filter')")
  | VNull => Throw (TypeError "Cannot read properties of null (reading 'filter')")
  | _ => Throw (TypeError "filter is not a function")
  end.

(** [/api/artists/:country], for the parameter [country]. *)
Definition artistsByCountry (data country : value) : result value :=
  let* requestedNationality := call_toLowerCase country in
  call_filter data (fun artist =>
    let* nationality := get artist "Nationality" in
    let* lowered := call_toLowerCase nationality in
    Ok (sameText lowered requestedNationality)).

(** [/api/galleries/:country], for the parameter [country]. *)
Definition galleriesByCountry (data country : value) : result value :=
  let* requestedCountry := call_toLowerCase country in
  call_filter data (fun gallery =>
    let* country' := get gallery "GalleryCountry" in
    let* lowered := call_toLowerCase country' in
    Ok (sameText lowered requestedCountry)).

End Wide.

(* ===================================================================== *)
(** * Sample data                                                         *)
(* ===================================================================== *)

Module Sample.

(** A host that serves the given documents from the script's directory:
    a file's text is identified with its name. *)
Definition serving (docs : list (string * value)) : host :=
  {| dirname := "/srv/app";
     fs_readFile := fun path =>
       match List.find (fun d => String.eqb path (path_join "/srv/app" "/srv/app" (fst d))) docs with
       | Some d => Ok (fst d)
       | None => Throw (SystemError "ENOENT")
       end;
     JSON_parse := fun text =>
       match lookup text docs with
       | Some v => Ok v
       | None => Throw (SyntaxError "Unexpected token")
       end |}.

Definition num (z : Z) : value := VNum (ofZ z).

(** The painting of the specification's scenario. *)
Definition starryNight : value :=
  VObj [ ("paintingID", num 1);
         ("title", VStr "Starry Night");
         ("yearOfWork", VStr "1889");
         ("artist", VObj [("artistID", num 7)]);
         ("gallery", VObj [("galleryID", num 3)]);
         ("details", VObj [("annotation",
            VObj [("dominantColors", VArr [VObj [("name", VStr "Navy Blue")]])])]) ].

Definition sunflowers : value :=
  VObj [ ("paintingID", num 2);
         ("title", VStr "Sunflowers");
         ("yearOfWork", VStr "1990");
         ("artist", VObj [("artistID", num 3)]);
         ("gallery", VObj [("galleryID", num 3)]);
         ("details", VObj [("annotation",
            VObj [("dominantColors", VArr [VObj [("web", VStr "#8B0000")];
                                           VObj [("name", VStr "  Dark Red  ")]])])]) ].

Definition paintings : list value := [starryNight; sunflowers].

Definition gallery1 : host := serving [(filePaintings, VArr paintings)].

Definition monet : value :=
  VObj [("ArtistID", num 1); ("LastName", VStr "Monet"); ("Nationality", VStr "France")].

Definition vanGogh : value :=
  VObj [("ArtistID", num 2); ("LastName", VStr "van Gogh"); ("Nationality", VStr "Netherlands")].

(** An artist record without [Nationality]. *)
Definition anonymous : value :=
  VObj [("ArtistID", num 3); ("LastName", VStr "Unknown")].

Definition louvre : value :=
  VObj [("GalleryID", num 1); ("GalleryName", VStr "Louvre"); ("GalleryCountry", VStr "France")].

Definition prado : value :=
  VObj [("GalleryID", num 2); ("GalleryName", VStr "Prado"); ("GalleryCountry", VStr "Spain")].

(** A gallery record whose country is [null]. *)
Definition unplaced : value :=
  VObj [("GalleryID", num 9); ("GalleryName", VStr "Depot"); ("GalleryCountry", VNull)].

(** A painting record without a title. *)
Definition untitled : value :=
  VObj [("paintingID", num 4); ("yearOfWork", VStr "1901")].

Definition museum : host :=
  serving [ (fileArtist, VArr [monet; vanGogh]);
            (fileGallery, VArr [louvre; prado]);
            (filePaintings, VArr paintings) ].

Definition museumWithGaps : host :=
  serving [ (fileArtist, VArr [monet; anonymous]);
            (fileGallery, VArr [louvre; unplaced]);
            (filePaintings, VArr [untitled; sunflowers]) ].

End Sample.

Import Sample.

(* ===================================================================== *)
(** * The model at work                                                   *)
(* ===================================================================== *)

(** Conversions between text and Numbers. *)

Example Number_of_text :
  StringToNumber "  12  " = ofZ 12 /\
  StringToNumber "0x1F" = ofZ 31 /\
  StringToNumber "1e3" = ofZ 1000 /\
  StringToNumber "" = zero false /\
  StringToNumber "-0" = zero true /\
  StringToNumber "abc" = NaN /\
  StringToNumber "12px" = NaN /\
  StringToNumber "1e400" = Infinity false /\
  StringToNumber "9007199254740993" = ofZ 9007199254740992.
Proof. vm_compute. repeat split. Qed.

Example parseInt_of_text :
  parseIntString "1889" 10 = ofZ 1889 /\
  parseIntString "  -12.5" 10 = ofZ (-12) /\
  parseIntString "12px" 10 = ofZ 12 /\
  parseIntString "0x10" 10 = zero false /\
  parseIntString "-0" 10 = zero true /\
  parseIntString "abc" 10 = NaN /\
  parseIntString "" 10 = NaN.
Proof. vm_compute. repeat split. Qed.

Example text_of_Number :
  NumberToString (ofZ 1889) = "1889" /\
  NumberToString (StringToNumber "0.1") = "0.1" /\
  NumberToString (StringToNumber "-1.50") = "-1.5" /\
  NumberToString (StringToNumber "1e21") = "1e+21" /\
  NumberToString (StringToNumber "0.0000001") = "1e-7" /\
  NumberToString (ofZ 1152921504606846976) = "1152921504606847000" /\
  NumberToString (zero true) = "0".
Proof. vm_compute. repeat split. Qed.

Example parseInt_of_values :
  parseInt (VNum (ofZ 1889)) 10 = Ok (ofZ 1889) /\
  parseInt (VNum (StringToNumber "1889.75")) 10 = Ok (ofZ 1889) /\
  parseInt (VArr [VStr "1990"]) 10 = Ok (ofZ 1990) /\
  parseInt (VBool true) 10 = Ok NaN /\
  parseInt (VObj [("year", VStr "1990")]) 10 = Ok NaN /\
  parseInt (VObj [("toString", VStr "1990")]) 10 =
    Throw (TypeError "Cannot convert object to primitive value").
Proof. vm_compute. repeat split. Qed.

(** The scenario of the specification: one painting in the dataset. *)

Example scenario :
  let h := serving [(filePaintings, VArr [starryNight])] in
  let found := Some (Found (VArr [starryNight])) in
  outcome (respond getPaintingById h (request1 "/api/painting/1" "paintingID" "1")) =
    Some (Found starryNight) /\
  outcome (respond getPaintingById h (request1 "/api/painting/99" "paintingID" "99")) =
    Some NotFound /\
  outcome (respond getPaintingsByYear h (yearRequest "/api/painting/year/1880/1890" "1880" "1890")) =
    found /\
  outcome (respond getPaintingsByYear h (yearRequest "/api/painting/year/1900/1950" "1900" "1950")) =
    Some NotFound /\
  outcome (respond getPaintingsByColor h (request1 "/api/painting/color/navy" "name" "navy")) =
    found /\
  outcome (respond getPaintingsByArtist h (request1 "/api/painting/artist/7" "artistID" "7")) =
    found /\
  outcome (respond getPaintingsByArtist h (request1 "/api/painting/artist/8" "artistID" "8")) =
    Some NotFound /\
  outcome (respond getPaintingsByGallery h (request1 "/api/painting/gallery/3" "galleryID" "3")) =
    found /\
  outcome (respond getPaintings h {| url := "/api/paintings"; params := [] |}) = found /\
  outcome (respond getArtists h {| url := "/api/artists"; params := [] |}) = Some Error.
Proof. vm_compute. repeat split. Qed.

(* ===================================================================== *)
(** * Facts about the runtime                                             *)
(* ===================================================================== *)

Section ArrayLoops.

Variable cb : value -> result value.

(** A callback that completes normally on every element makes [filter] the
    list filter of its truthiness. *)
Lemma filterList_pure (pred : value -> bool) (l : list value) :
  (forall x, In x l -> exists v, cb x = Ok v /\ ToBoolean v = pred x) ->
  filterList cb l = Ok (filter pred l).
Proof.
  induction l as [|x l IH]; intros Hcb; simpl.
  - reflexivity.
  - destruct (Hcb x (or_introl eq_refl)) as (v & Hv & Hp).
    rewrite Hv; simpl.
    rewrite IH by (intros y Hy; apply Hcb; right; exact Hy).
    simpl. rewrite Hp. reflexivity.
Qed.

(** One element on which the callback throws makes the whole loop throw. *)
Lemma filterList_throws (l : list value) (x : value) (e : exn) :
  In x l -> cb x = Throw e -> exists e', filterList cb l = Throw e'.
Proof.
  induction l as [|y l IH]; intros Hin Hx; simpl.
  - destruct Hin.
  - destruct (cb y) as [v|e0] eqn:Hy; simpl.
    + destruct Hin as [->|Hin]; [congruence|].
      destruct (IH Hin Hx) as (e' & ->). simpl. eauto.
    + eauto.
Qed.

(** Nothing selected: the filter is empty. *)
Lemma filterList_none (l : list value) :
  (forall x, In x l -> exists v, cb x = Ok v /\ ToBoolean v = false) ->
  filterList cb l = Ok [].
Proof.
  intros H. rewrite (filterList_pure (fun _ => false)) by exact H.
  clear H. f_equal. induction l; simpl; auto.
Qed.

(** [find] with a callback that completes normally is the list search. *)
Lemma findList_pure (pred : value -> bool) (l : list value) :
  (forall x, In x l -> exists v, cb x = Ok v /\ ToBoolean v = pred x) ->
  findList cb l = Ok (match find pred l with Some p => p | None => VUndefined end).
Proof.
  induction l as [|x l IH]; intros Hcb; simpl.
  - reflexivity.
  - destruct (Hcb x (or_introl eq_refl)) as (v & Hv & Hp).
    rewrite Hv; simpl. rewrite Hp.
    destruct (pred x); [reflexivity|].
    apply IH. intros y Hy; apply Hcb; right; exact Hy.
Qed.

Lemma someList_pure (pred : value -> bool) (l : list value) :
  (forall x, In x l -> exists v, cb x = Ok v /\ ToBoolean v = pred x) ->
  someList cb l = Ok (existsb pred l).
Proof.
  induction l as [|x l IH]; intros Hcb; simpl.
  - reflexivity.
  - destruct (Hcb x (or_introl eq_refl)) as (v & Hv & Hp).
    rewrite Hv; simpl. rewrite Hp.
    destruct (pred x); [reflexivity|].
    apply IH. intros y Hy; apply Hcb; right; exact Hy.
Qed.

End ArrayLoops.

(** ** The pipeline, in one equation *)

Lemma handleApiRequest_run h directory filename f errorMessage req w :
  handleApiRequest h directory filename f errorMessage req w =
  (Ok tt,
   match selected h directory filename f req with
   | Ok r => if hasData r then foundResponse r w else notFoundResponse req w
   | Throw e => errorResponse errorMessage e w
   end).
Proof.
  unfold handleApiRequest, selected, try_catch, bind, lift.
  destruct (fs_readFile h _) as [data|e]; simpl; [|reflexivity].
  destruct (JSON_parse h data) as [jsonData|e]; simpl; [|reflexivity].
  destruct (f jsonData req) as [r|e]; simpl; [|reflexivity].
  destruct (hasData r); reflexivity.
Qed.

Lemma Fault_selected h directory filename f req e :
  Fault h directory filename f req e <-> selected h directory filename f req = Throw e.
Proof.
  unfold selected. split.
  - intros [H | data H1 H2 | data json H1 H2 H3].
    + rewrite H. reflexivity.
    + rewrite H1. simpl. rewrite H2. reflexivity.
    + rewrite H1. simpl. rewrite H2. simpl. exact H3.
  - destruct (fs_readFile h _) as [data|e0] eqn:H1; simpl.
    + destruct (JSON_parse h data) as [json|e1] eqn:H2; simpl.
      * intros H3. eapply selecting_fails; eauto.
      * intros [= ->]. eapply parsing_fails; eauto.
    + intros [= ->]. apply loading_fails. exact H1.
Qed.

(** A route that reads [filename] selects from the dataset of that file. *)
Lemma selected_dataset h filename f req :
  selected h (dirname h) filename f req =
  let* jsonData := dataset h filename in f jsonData req.
Proof.
  unfold selected, dataset.
  destruct (fs_readFile h _); reflexivity.
Qed.

(* ===================================================================== *)
(** * The response resolver                                               *)
(* ===================================================================== *)

(** C1 (as amended).  When the selector returns [r], the pipeline answers
    Found with [r] if [r] is a non-empty array or any non-array value other
    than [undefined], and NotFound if [r] is the empty array or [undefined].
    [null] and falsy scalars such as the empty string are Found. *)
Theorem resolver_classification h directory filename f errorMessage req r :
  selected h directory filename f req = Ok r ->
  outcome (res (snd (handleApiRequest h directory filename f errorMessage req initial))) =
  Some (match r with
        | VArr elems => if (0 <? List.length elems)%nat then Found r else NotFound
        | VUndefined => NotFound
        | _ => Found r
        end).
Proof.
  intros Hsel. rewrite handleApiRequest_run, Hsel. simpl.
  destruct r as [| |b|n|s|elems|props]; try reflexivity.
  unfold hasData; simpl.
  destruct (0 <? List.length elems)%nat; reflexivity.
Qed.

(** The rule at work: a stored document [""] is served as it is. *)
Lemma resolver_classification_witness :
  outcome (respond getArtists (serving [(fileArtist, VStr "")])
             {| url := "/api/artists"; params := [] |}) = Some (Found (VStr "")).
Proof.
  apply (resolver_classification (serving [(fileArtist, VStr "")]) "/srv/app"
           fileArtist selectAll "No artists found"
           {| url := "/api/artists"; params := [] |} (VStr "")).
  reflexivity.
Defined.

(** C1 (as stated) fails on [null]: the document [null] is answered with
    status 200 and the payload [null], where the stated rule says NotFound. *)
Lemma resolver_null_is_found :
  let h := serving [(fileArtist, VNull)] in
  let req := {| url := "/api/artists"; params := [] |} in
  selected h (dirname h) fileArtist selectAll req = Ok VNull /\
  respond getArtists h req =
    {| statusCode := 200; contentType := Some "application/json";
       sent := Some (Stringified VNull 2) |} /\
  outcome (respond getArtists h req) = Some (Found VNull) /\
  resolve_spec VNull = NotFound.
Proof.
  repeat split.
Qed.

(* ===================================================================== *)
(** * The error boundary                                                  *)
(* ===================================================================== *)

(** Every route completes normally, whatever the host and the request. *)
Lemma routes_complete_normally name hd :
  In (name, hd) routes -> forall h req w, fst (hd h req w) = Ok tt.
Proof.
  unfold routes; simpl.
  intros H h req w.
  repeat (destruct H as [[= <- <-]|H]);
    try (unfold getArtists, getArtistsByCountry, getGalleries, getGalleriesByCountry,
           getPaintings, getPaintingsByArtist, getPaintingsByYear, getPaintingsByTitle,
           getPaintingsByColor;
         rewrite handleApiRequest_run; reflexivity).
  - unfold getPaintingById, try_catch, bind, lift.
    destruct (Number (param req "paintingID")); simpl; [|reflexivity].
    rewrite handleApiRequest_run. reflexivity.
  - unfold getPaintingsByGallery, try_catch, bind, lift.
    destruct (parseInt (param req "galleryID") 10); simpl; [|reflexivity].
    rewrite handleApiRequest_run. reflexivity.
  - destruct H.
Qed.

(** C2.  A fault while loading, parsing or selecting is caught by the
    pipeline: the handler completes normally, the response is 500 with the
    fixed body, and the exception goes to the console only.  No route lets
    an exception through to Express. *)
Theorem faults_collapse_to_500 :
  (forall h directory filename f errorMessage req w e,
     Fault h directory filename f req e ->
     exists w',
       handleApiRequest h directory filename f errorMessage req w = (Ok tt, w') /\
       statusCode (res w') = 500 /\
       sent (res w') = Some (Text "Internal Server Error") /\
       outcome (res w') = Some Error /\
       console w' = (console w ++ [Failure (errorMessage ++ ":") e])%list) /\
  (forall name hd, In (name, hd) routes ->
     forall h req w, fst (hd h req w) = Ok tt).
Proof.
  split.
  - intros h directory filename f errorMessage req w e HF.
    apply Fault_selected in HF.
    exists (errorResponse errorMessage e w).
    rewrite handleApiRequest_run, HF.
    repeat split.
  - exact routes_complete_normally.
Qed.

Lemma faults_collapse_to_500_witness :
  exists w',
    getPaintings (serving []) {| url := "/api/paintings"; params := [] |} initial = (Ok tt, w') /\
    statusCode (res w') = 500 /\
    sent (res w') = Some (Text "Internal Server Error") /\
    outcome (res w') = Some Error /\
    console w' = [Failure "Error getting paintings:" (SystemError "ENOENT")].
Proof.
  apply (proj1 faults_collapse_to_500 (serving []) "/srv/app" filePaintings selectAll
           "Error getting paintings" {| url := "/api/paintings"; params := [] |}
           initial (SystemError "ENOENT")).
  apply loading_fails. reflexivity.
Defined.

(* ===================================================================== *)
(** * Parsing path parameters                                             *)
(* ===================================================================== *)

(** ** NaN compares with nothing *)




(** ** Text that starts like no number *)



Lemma isRadixDigit_10 c : isRadixDigit 10 c = isDigit c.
Proof.
  destruct c as [[] [] [] [] [] [] [] []]; reflexivity.
Qed.



(** ** Reading the parameters of a request *)

Lemma param_request1 u name v : param (request1 u name v) name = VStr v.
Proof. unfold param, request1; simpl. rewrite String.eqb_refl. reflexivity. Qed.

Lemma param_min u lo hi : param (yearRequest u lo hi) "min" = VStr lo.
Proof. reflexivity. Qed.

Lemma param_max u lo hi : param (yearRequest u lo hi) "max" = VStr hi.
Proof. reflexivity. Qed.

Lemma get_record p key : isRecord p = true -> get p key = Ok (field key p).
Proof.
  destruct p; try discriminate. intros _.
  unfold field, get. destruct (lookup key props); reflexivity.
Qed.

Lemma yearReadable_get p : yearReadable p = true -> get p "yearOfWork" = Ok (field "yearOfWork" p).
Proof.
  unfold yearReadable, yearOf, field.
  destruct (get p "yearOfWork"); [reflexivity|discriminate].
Qed.

(** ** The routes that convert their parameter first *)

Lemma getPaintingById_run h u id w :
  getPaintingById h (request1 u "paintingID" id) w =
  handleApiRequest h (dirname h) filePaintings (paintingById (StringToNumber id))
    "Painting not found" (request1 u "paintingID" id) w.
Proof.
  unfold getPaintingById, try_catch, bind, lift.
  rewrite param_request1. cbn [Number ToNumber].
  rewrite handleApiRequest_run. reflexivity.
Qed.

Lemma getPaintingsByGallery_run h u id w :
  getPaintingsByGallery h (request1 u "galleryID" id) w =
  handleApiRequest h (dirname h) filePaintings (paintingsByGallery (parseIntString id 10))
    "No paintings found for the specified galleryID" (request1 u "galleryID" id) w.
Proof.
  unfold getPaintingsByGallery, try_catch, bind, lift.
  rewrite param_request1. cbn [parseInt ToString rbind].
  rewrite handleApiRequest_run. reflexivity.
Qed.

(** What a route answers once its dataset and its selection are known. *)
Lemma answer_of_selection h filename f errorMessage req doc r :
  dataset h filename = Ok doc ->
  f doc req = Ok r ->
  res (snd (handleApiRequest h (dirname h) filename f errorMessage req initial)) =
  res (if hasData r then foundResponse r initial else notFoundResponse req initial).
Proof.
  intros Hd Hf. rewrite handleApiRequest_run, selected_dataset, Hd. simpl.
  rewrite Hf. reflexivity.
Qed.

(* ===================================================================== *)
(** * Painting by id                                                      *)
(* ===================================================================== *)

Lemma paintingById_records n data req :
  forallb isRecord data = true ->
  paintingById n (VArr data) req =
  Ok (match find (hasId n) data with Some p => p | None => VUndefined end).
Proof.
  intros Hrec. unfold paintingById, call_find.
  rewrite (findList_pure _ (hasId n)); [reflexivity|].
  intros x Hx. rewrite forallb_forall in Hrec.
  rewrite (get_record x "paintingID" (Hrec x Hx)). simpl. eauto.
Qed.


(** The answer of the painting-by-id route on a dataset of records. *)
Lemma getPaintingById_answer h data u id :
  dataset h filePaintings = Ok (VArr data) ->
  forallb isRecord data = true ->
  res (snd (getPaintingById h (request1 u "paintingID" id) initial)) =
  res (match find (hasId (StringToNumber id)) data with
       | Some p => foundResponse p initial
       | None => notFoundResponse (request1 u "paintingID" id) initial
       end).
Proof.
  intros Hd Hrec. rewrite getPaintingById_run.
  rewrite (answer_of_selection _ _ _ _ _ _ _ Hd
             (paintingById_records (StringToNumber id) data _ Hrec)).
  destruct (find (hasId (StringToNumber id)) data) as [p|] eqn:Hfind; [|reflexivity].
  apply find_some in Hfind. destruct Hfind as [Hin _].
  rewrite forallb_forall in Hrec. specialize (Hrec p Hin).
  destruct p; try discriminate. reflexivity.
Qed.

(** C7.  On a dataset of records the painting-by-id selector converts the
    id with [Number], compares it to [paintingID] with [===] and returns the
    first record that matches, as a single record; with no match it returns
    [undefined], and the request is answered NotFound. *)
Theorem painting_by_id h data u id :
  dataset h filePaintings = Ok (VArr data) ->
  forallb isRecord data = true ->
  let req := request1 u "paintingID" id in
  let requested := StringToNumber id in
  selected h (dirname h) filePaintings (paintingById requested) req =
    Ok (match find (hasId requested) data with Some p => p | None => VUndefined end) /\
  outcome (respond getPaintingById h req) =
    Some (match find (hasId requested) data with Some p => Found p | None => NotFound end).
Proof.
  intros Hd Hrec req requested.
  split.
  - rewrite selected_dataset, Hd. apply paintingById_records, Hrec.
  - unfold respond, req. rewrite (getPaintingById_answer h data u id Hd Hrec).
    fold requested. destruct (find (hasId requested) data); reflexivity.
Qed.

Lemma painting_by_id_witness :
  let req := request1 "/api/painting/1" "paintingID" "1" in
  selected gallery1 (dirname gallery1) filePaintings (paintingById (StringToNumber "1")) req =
    Ok starryNight /\
  outcome (respond getPaintingById gallery1 req) = Some (Found starryNight).
Proof.
  apply (painting_by_id gallery1 paintings "/api/painting/1" "1"); reflexivity.
Defined.

(* ===================================================================== *)
(** * Paintings by year range                                             *)
(* ===================================================================== *)

(** The callback of the year filter, on a painting whose year can be read. *)
Lemma year_callback lo hi p :
  yearReadable p = true ->
  exists v,
    (get p "yearOfWork" &&&
     (let* y := yearOf p in Ok (VBool (numGe y lo))) &&&
     (let* y := yearOf p in Ok (VBool (numLe y hi)))) = Ok v /\
    ToBoolean v = inYearRange lo hi p.
Proof.
  intros Hr. pose proof (yearReadable_get p Hr) as Hget.
  unfold inYearRange. unfold yearReadable in Hr.
  destruct (yearOf p) as [y|e]; [|discriminate].
  rewrite Hget. unfold andAlso; simpl.
  destruct (ToBoolean (field "yearOfWork" p)) eqn:Ht; simpl.
  - destruct (numGe y lo); simpl; eauto.
  - rewrite Ht. eauto.
Qed.

Lemma paintingsByYear_readable data u lo hi :
  forallb yearReadable data = true ->
  paintingsByYear (VArr data) (yearRequest u lo hi) =
  Ok (VArr (filter (inYearRange (parseIntString lo 10) (parseIntString hi 10)) data)).
Proof.
  intros Hr. unfold paintingsByYear.
  rewrite param_min, param_max. cbn [parseInt ToString rbind call_filter].
  rewrite (filterList_pure _ (inYearRange (parseIntString lo 10) (parseIntString hi 10)));
    [reflexivity|].
  intros x Hx. rewrite forallb_forall in Hr.
  apply year_callback. apply Hr. exact Hx.
Qed.

Lemma hasData_list (l : list value) :
  hasData (VArr l) = match l with [] => false | _ => true end.
Proof. destruct l; reflexivity. Qed.

(** The answer to a selection that is a list. *)
Lemma answer_of_list h filename f errorMessage req doc l :
  dataset h filename = Ok doc ->
  f doc req = Ok (VArr l) ->
  outcome (res (snd (handleApiRequest h (dirname h) filename f errorMessage req initial))) =
  Some (match l with [] => NotFound | _ => Found (VArr l) end).
Proof.
  intros Hd Hf. rewrite (answer_of_selection _ _ _ _ _ _ _ Hd Hf), hasData_list.
  destruct l; reflexivity.
Qed.

(** C4 (as amended).  On paintings whose year can be read, the year-range
    selector returns exactly the paintings whose [yearOfWork] is truthy and
    has [min <= parseInt(yearOfWork) <= max], both ends included; they are
    the payload of the answer.  A painting with [yearOfWork] "1990" is in
    the range from 1990 to 1990. *)
Theorem paintings_by_year_range h data u lo hi :
  dataset h filePaintings = Ok (VArr data) ->
  forallb yearReadable data = true ->
  let req := yearRequest u lo hi in
  let selectedPaintings :=
    filter (inYearRange (parseIntString lo 10) (parseIntString hi 10)) data in
  paintingsByYear (VArr data) req = Ok (VArr selectedPaintings) /\
  outcome (respond getPaintingsByYear h req) =
    Some (match selectedPaintings with [] => NotFound | _ => Found (VArr selectedPaintings) end) /\
  (forall p, field "yearOfWork" p = VStr "1990" ->
     inYearRange (parseIntString "1990" 10) (parseIntString "1990" 10) p = true).
Proof.
  intros Hd Hr req sel.
  pose proof (paintingsByYear_readable data u lo hi Hr) as Hsel.
  split; [exact Hsel|]. split.
  - unfold respond, getPaintingsByYear.
    apply (answer_of_list _ _ _ _ _ _ _ Hd Hsel).
  - intros p Hy. unfold inYearRange. rewrite Hy.
    assert (Hg : get p "yearOfWork" = Ok (VStr "1990")).
    { unfold field in Hy. destruct (get p "yearOfWork"); congruence. }
    unfold yearOf. rewrite Hg. vm_compute. reflexivity.
Qed.

Lemma paintings_by_year_range_witness :
  let req := yearRequest "/api/painting/year/1990/1990" "1990" "1990" in
  paintingsByYear (VArr paintings) req = Ok (VArr [sunflowers]) /\
  outcome (respond getPaintingsByYear gallery1 req) = Some (Found (VArr [sunflowers])) /\
  inYearRange (parseIntString "1990" 10) (parseIntString "1990" 10) sunflowers = true.
Proof.
  destruct (paintings_by_year_range gallery1 paintings "/api/painting/year/1990/1990"
              "1990" "1990" eq_refl eq_refl) as (H1 & H2 & H3).
  split; [exact H1|]. split; [exact H2|].
  apply H3. reflexivity.
Defined.

(** C4 (as stated) fails on a painting dated with the number 0: the field
    is present and 0 lies between -1 and 1, yet the selector drops the
    painting, since 0 is falsy. *)
Lemma year_zero_is_dropped :
  let p := VObj [("paintingID", num 5); ("yearOfWork", num 0)] in
  let req := yearRequest "/api/painting/year/-1/1" "-1" "1" in
  paintingsByYear (VArr [p]) req = Ok (VArr []) /\
  outcome (respond getPaintingsByYear (serving [(filePaintings, VArr [p])]) req) = Some NotFound /\
  filter (inYearRange_spec (parseIntString "-1" 10) (parseIntString "1" 10)) [p] = [p].
Proof.
  vm_compute. repeat split.
Qed.

(* ===================================================================== *)
(** * Numeric prefixes                                                    *)
(* ===================================================================== *)

Lemma spanDigits_split R s a b : spanDigits R s = (a, b) -> s = a ++ b.
Proof.
  revert a b. induction s as [|c s IH]; simpl; intros a b.
  - intros [= <- <-]. reflexivity.
  - destruct (isRadixDigit R c).
    + destruct (spanDigits R s) as [d rest]. intros [= <- <-].
      simpl. f_equal. apply IH. reflexivity.
    + intros [= <- <-]. reflexivity.
Qed.


Lemma append_empty_r (s : string) : s ++ EmptyString = s.
Proof. induction s; simpl; congruence. Qed.

Lemma isDigits_span d : isDigits d = true -> spanDigits 10 d = (d, EmptyString) /\ d <> EmptyString.
Proof.
  unfold isDigits, allDigits.
  destruct (spanDigits 10 d) as [a b] eqn:Hs.
  destruct a as [|c a]; [discriminate|]. destruct b; [|discriminate].
  intros _. apply spanDigits_split in Hs. rewrite Hs, append_empty_r.
  split; [reflexivity|discriminate].
Qed.

(** [parseInt] on text that begins with a digit: the leading digits count. *)
Lemma parseIntString_digit_first c r :
  isDigit c = true ->
  parseIntString (String c r) 10 =
  match fst (spanDigits 10 (String c r)) with
  | EmptyString => NaN
  | digits =>
      if digitsValue 10 0 digits =? 0 then zero false else ofZ (digitsValue 10 0 digits)
  end.
Proof.
  intros Hc. unfold parseIntString.
  destruct c as [[] [] [] [] [] [] [] []]; try discriminate Hc;
    destruct r as [|x r];
    cbv -[spanDigits digitsValue ofZ];
    match goal with
    | |- context [spanDigits 10 ?s] => destruct (spanDigits 10 s) as [[|a ds] rest]
    end; reflexivity.
Qed.




(* ===================================================================== *)
(** * Artists and galleries by country                                    *)
(* ===================================================================== *)

Lemma toLowerUnit_idempotent c : toLowerUnit (toLowerUnit c) = toLowerUnit c.
Proof. destruct c as [[] [] [] [] [] [] [] []]; reflexivity. Qed.

Lemma differOnlyInCase_toLowerCase a b :
  differOnlyInCase a b = true -> toLowerCase a = toLowerCase b.
Proof.
  revert b. induction a as [|x a IH]; intros [|y b]; simpl; try discriminate; auto.
  intros H. apply andb_prop in H. destruct H as [Hxy Hab].
  f_equal; [|apply IH; exact Hab].
  apply orb_prop in Hxy. destruct Hxy as [Hxy|Hxy].
  - apply orb_prop in Hxy. destruct Hxy as [Hxy|Hxy].
    + apply Ascii.eqb_eq in Hxy. congruence.
    + apply Ascii.eqb_eq in Hxy. subst y. symmetry. apply toLowerUnit_idempotent.
  - apply Ascii.eqb_eq in Hxy. subst x. apply toLowerUnit_idempotent.
Qed.

(** The callback of the country filters, on a record whose field is text. *)
Lemma country_callback key q p :
  hasText key p = true ->
  exists v,
    (let* x := get p key in
     let* lowered := call_toLowerCase x in
     Ok (VBool (String.eqb lowered (toLowerCase q)))) = Ok v /\
    ToBoolean v = countryIs key q p.
Proof.
  unfold hasText, countryIs, field.
  destruct (get p key) as [[| | | |s| |]|]; try discriminate.
  intros _. simpl. eauto.
Qed.

(** A record without text in the field makes the callback throw. *)
Lemma country_callback_throws key q p :
  lacks key p = true ->
  exists e,
    (let* x := get p key in
     let* lowered := call_toLowerCase x in
     Ok (VBool (String.eqb lowered q))) = Throw e.
Proof.
  unfold lacks.
  destruct (get p key) as [[| | | | | |]|]; try discriminate; intros _; simpl; eauto.
Qed.

Lemma artistsByCountry_text data u c :
  forallb (hasText "Nationality") data = true ->
  artistsByCountry (VArr data) (request1 u "country" c) =
  Ok (VArr (filter (countryIs "Nationality" c) data)).
Proof.
  intros Ht. unfold artistsByCountry. rewrite param_request1.
  cbn [call_toLowerCase rbind call_filter].
  rewrite (filterList_pure _ (countryIs "Nationality" c)); [reflexivity|].
  intros x Hx. rewrite forallb_forall in Ht.
  apply country_callback, Ht, Hx.
Qed.

Lemma galleriesByCountry_text data u c :
  forallb (hasText "GalleryCountry") data = true ->
  galleriesByCountry (VArr data) (request1 u "country" c) =
  Ok (VArr (filter (countryIs "GalleryCountry" c) data)).
Proof.
  intros Ht. unfold galleriesByCountry. rewrite param_request1.
  cbn [call_toLowerCase rbind call_filter].
  rewrite (filterList_pure _ (countryIs "GalleryCountry" c)); [reflexivity|].
  intros x Hx. rewrite forallb_forall in Ht.
  apply country_callback, Ht, Hx.
Qed.

(** Requests on which the selector agrees have the same outcome. *)
Lemma outcome_ext h filename f errorMessage req1 req2 :
  (forall doc, f doc req1 = f doc req2) ->
  outcome (res (snd (handleApiRequest h (dirname h) filename f errorMessage req1 initial))) =
  outcome (res (snd (handleApiRequest h (dirname h) filename f errorMessage req2 initial))).
Proof.
  intros Hf. rewrite !handleApiRequest_run. unfold selected.
  destruct (fs_readFile h _) as [data|]; simpl; [|reflexivity].
  destruct (JSON_parse h data) as [doc|]; simpl; [|reflexivity].
  rewrite Hf. destruct (f doc req2) as [r|]; [|reflexivity].
  destruct (hasData r); reflexivity.
Qed.

(** C6 (as amended).  On Latin-1 text, two country parameters that differ
    in letter case only have the same lower case, so on every dataset the
    artists selector and the galleries selector return the same for both
    (and the requests have the same outcome); on records whose country is
    text the selection is the records whose country equals the parameter,
    both in lower case. *)
Theorem country_match_ignores_case c1 c2 :
  differOnlyInCase c1 c2 = true ->
  toLowerCase c1 = toLowerCase c2 /\
  (forall data u1 u2,
     artistsByCountry data (request1 u1 "country" c1) =
     artistsByCountry data (request1 u2 "country" c2)) /\
  (forall data u1 u2,
     galleriesByCountry data (request1 u1 "country" c1) =
     galleriesByCountry data (request1 u2 "country" c2)) /\
  (forall h u1 u2,
     outcome (respond getArtistsByCountry h (request1 u1 "country" c1)) =
     outcome (respond getArtistsByCountry h (request1 u2 "country" c2))) /\
  (forall h u1 u2,
     outcome (respond getGalleriesByCountry h (request1 u1 "country" c1)) =
     outcome (respond getGalleriesByCountry h (request1 u2 "country" c2))) /\
  (forall data u, forallb (hasText "Nationality") data = true ->
     artistsByCountry (VArr data) (request1 u "country" c1) =
     Ok (VArr (filter (countryIs "Nationality" c2) data))) /\
  (forall data u, forallb (hasText "GalleryCountry") data = true ->
     galleriesByCountry (VArr data) (request1 u "country" c1) =
     Ok (VArr (filter (countryIs "GalleryCountry" c2) data))).
Proof.
  intros Hc. apply differOnlyInCase_toLowerCase in Hc.
  assert (Ha : forall data u1 u2,
             artistsByCountry data (request1 u1 "country" c1) =
             artistsByCountry data (request1 u2 "country" c2)).
  { intros. unfold artistsByCountry. rewrite !param_request1.
    cbn [call_toLowerCase rbind]. rewrite Hc. reflexivity. }
  assert (Hg : forall data u1 u2,
             galleriesByCountry data (request1 u1 "country" c1) =
             galleriesByCountry data (request1 u2 "country" c2)).
  { intros. unfold galleriesByCountry. rewrite !param_request1.
    cbn [call_toLowerCase rbind]. rewrite Hc. reflexivity. }
  repeat split; auto.
  - intros h u1 u2. apply outcome_ext. intros doc. apply Ha.
  - intros h u1 u2. apply outcome_ext. intros doc. apply Hg.
  - intros data u Ht. rewrite (Ha (VArr data) u u). apply artistsByCountry_text, Ht.
  - intros data u Ht. rewrite (Hg (VArr data) u u). apply galleriesByCountry_text, Ht.
Qed.

Lemma country_match_ignores_case_witness :
  toLowerCase "FRANCE" = toLowerCase "france" /\
  artistsByCountry (VArr [monet; vanGogh]) (request1 "/api/artists/FRANCE" "country" "FRANCE") =
  artistsByCountry (VArr [monet; vanGogh]) (request1 "/api/artists/france" "country" "france") /\
  galleriesByCountry (VArr [louvre; prado]) (request1 "/api/galleries/FRANCE" "country" "FRANCE") =
  Ok (VArr [louvre]) /\
  outcome (respond getGalleriesByCountry museum (request1 "/api/galleries/FRANCE" "country" "FRANCE")) =
  outcome (respond getGalleriesByCountry museum (request1 "/api/galleries/france" "country" "france")).
Proof.
  destruct (country_match_ignores_case "FRANCE" "france" eq_refl)
    as (H1 & H2 & _ & _ & H5 & _ & H7).
  split; [exact H1|]. split; [apply H2|]. split; [|apply H5].
  apply (H7 [louvre; prado] "/api/galleries/FRANCE"). reflexivity.
Defined.

(** C9.  A record of the artists (galleries) dataset whose [Nationality]
    ([GalleryCountry]) is missing, [undefined] or [null] makes the country
    selector throw, whatever the other records are, and the request is
    answered 500.  The title selector skips a painting without a title. *)
Theorem missing_country_fails_the_request h data p u c :
  In p data ->
  (lacks "Nationality" p = true ->
     (exists e, artistsByCountry (VArr data) (request1 u "country" c) = Throw e) /\
     (dataset h fileArtist = Ok (VArr data) ->
      let r := respond getArtistsByCountry h (request1 u "country" c) in
      statusCode r = 500 /\ sent r = Some (Text "Internal Server Error"))) /\
  (lacks "GalleryCountry" p = true ->
     (exists e, galleriesByCountry (VArr data) (request1 u "country" c) = Throw e) /\
     (dataset h fileGallery = Ok (VArr data) ->
      let r := respond getGalleriesByCountry h (request1 u "country" c) in
      statusCode r = 500 /\ sent r = Some (Text "Internal Server Error"))) /\
  (lacks "title" p = true ->
     forall rest, paintingsByTitle (VArr (p :: rest)) (request1 u "text" c) =
                  paintingsByTitle (VArr rest) (request1 u "text" c)).
Proof.
  intros Hin. split; [|split].
  - intros Hl.
    assert (Hthrow : exists e, artistsByCountry (VArr data) (request1 u "country" c) = Throw e).
    { unfold artistsByCountry. rewrite param_request1.
      cbn [call_toLowerCase rbind call_filter].
      destruct (country_callback_throws "Nationality" (toLowerCase c) p Hl) as (e & He).
      match goal with
      | |- context [filterList ?cb data] =>
          destruct (filterList_throws cb data p e Hin He) as (e' & ->)
      end. simpl. eauto. }
    split; [exact Hthrow|]. intros Hd r. destruct Hthrow as (e & He).
    unfold r, respond, getArtistsByCountry.
    rewrite handleApiRequest_run, selected_dataset, Hd. simpl. rewrite He.
    split; reflexivity.
  - intros Hl.
    assert (Hthrow : exists e, galleriesByCountry (VArr data) (request1 u "country" c) = Throw e).
    { unfold galleriesByCountry. rewrite param_request1.
      cbn [call_toLowerCase rbind call_filter].
      destruct (country_callback_throws "GalleryCountry" (toLowerCase c) p Hl) as (e & He).
      match goal with
      | |- context [filterList ?cb data] =>
          destruct (filterList_throws cb data p e Hin He) as (e' & ->)
      end. simpl. eauto. }
    split; [exact Hthrow|]. intros Hd r. destruct Hthrow as (e & He).
    unfold r, respond, getGalleriesByCountry.
    rewrite handleApiRequest_run, selected_dataset, Hd. simpl. rewrite He.
    split; reflexivity.
  - intros Hl rest. unfold paintingsByTitle. rewrite param_request1.
    cbn [call_toLowerCase rbind call_filter filterList].
    unfold lacks in Hl. unfold andAlso at 1.
    destruct (get p "title") as [[| | | | | |]|]; try discriminate; simpl;
      destruct (filterList _ rest); reflexivity.
Qed.

Lemma missing_country_fails_the_request_witness :
  (artistsByCountry (VArr [monet; anonymous]) (request1 "/api/artists/france" "country" "france") =
     Throw (TypeError "Cannot read properties of undefined (reading 'toLowerCase')") /\
   let r := respond getArtistsByCountry museumWithGaps
              (request1 "/api/artists/france" "country" "france") in
   statusCode r = 500 /\ sent r = Some (Text "Internal Server Error")) /\
  (let r := respond getGalleriesByCountry museumWithGaps
              (request1 "/api/galleries/france" "country" "france") in
   statusCode r = 500 /\ sent r = Some (Text "Internal Server Error")) /\
  paintingsByTitle (VArr [untitled; sunflowers]) (request1 "/api/painting/title/sun" "text" "sun") =
  paintingsByTitle (VArr [sunflowers]) (request1 "/api/painting/title/sun" "text" "sun").
Proof.
  split; [|split].
  - destruct (missing_country_fails_the_request museumWithGaps [monet; anonymous] anonymous
                "/api/artists/france" "france" (or_intror (or_introl eq_refl)))
      as (H & _ & _).
    destruct (H eq_refl) as [_ H2]. split; [reflexivity|]. apply H2. reflexivity.
  - destruct (missing_country_fails_the_request museumWithGaps [louvre; unplaced] unplaced
                "/api/galleries/france" "france" (or_intror (or_introl eq_refl)))
      as (_ & H & _).
    destruct (H eq_refl) as [_ H2]. apply H2. reflexivity.
  - destruct (missing_country_fails_the_request museumWithGaps [untitled; sunflowers] untitled
                "/api/painting/title/sun" "sun" (or_introl eq_refl))
      as (_ & _ & H).
    apply (H eq_refl [sunflowers]).
Defined.

(* ===================================================================== *)
(** * Paintings by title                                                  *)
(* ===================================================================== *)

Lemma toLowerCase_nonempty s : s <> EmptyString -> toLowerCase s <> EmptyString.
Proof. destruct s; [congruence|discriminate]. Qed.

Lemma includes_empty_l q : q <> EmptyString -> includes EmptyString q = false.
Proof. destruct q; [congruence|reflexivity]. Qed.




(* ===================================================================== *)
(** * Paintings by colour name                                            *)
(* ===================================================================== *)

Lemma field_falsy key v : ToBoolean v = false -> field key v = VUndefined.
Proof.
  unfold field. destruct v as [| |[]|[]|[]| |]; simpl; try discriminate; reflexivity.
Qed.

Lemma get_truthy key v : ToBoolean v = true -> get v key = Ok (field key v).
Proof.
  unfold field. destruct v as [| |[]|[]|[]| |]; simpl; try discriminate; try reflexivity.
  intros _. destruct (lookup key props); reflexivity.
Qed.

(** The callback of [some], on an entry whose name can be read. *)
Lemma color_callback query color :
  nameReadable color = true ->
  colorMatches (toLowerCase query) color = Ok (VBool (colorNameMatches query color)).
Proof.
  unfold nameReadable, colorMatches, colorNameMatches, colorName, field.
  destruct (get color "name") as [[| |[]|[]|[|c s]| |]|]; simpl; try discriminate; reflexivity.
Qed.

(** The callback of the colour filter, on a painting whose colours can be
    read. *)
Lemma painting_color_callback query p :
  colorsReadable p = true ->
  exists v,
    (get p "details" &&&
     annotationOf p &&&
     dominantColorsOf p &&&
     (let* colors := dominantColorsOf p in
      call_some colors (colorMatches (toLowerCase query)))) = Ok v /\
    ToBoolean v = hasColor query p.
Proof.
  unfold colorsReadable. intros H. apply andb_prop in H. destruct H as [Hrec Hc].
  unfold hasColor, dominantColors in *.
  assert (Hann : ToBoolean (field "details" p) = true ->
                 annotationOf p = Ok (field "annotation" (field "details" p))).
  { intros Hd. unfold annotationOf. rewrite (get_record p "details" Hrec). simpl.
    apply get_truthy, Hd. }
  assert (Hdc : ToBoolean (field "details" p) = true ->
                ToBoolean (field "annotation" (field "details" p)) = true ->
                dominantColorsOf p =
                Ok (field "dominantColors" (field "annotation" (field "details" p)))).
  { intros Hd Ha. unfold dominantColorsOf. rewrite (Hann Hd). simpl.
    apply get_truthy, Ha. }
  unfold andAlso. rewrite (get_record p "details" Hrec). cbn [rbind].
  destruct (ToBoolean (field "details" p)) eqn:Hd.
  - rewrite (Hann eq_refl). cbn [rbind].
    destruct (ToBoolean (field "annotation" (field "details" p))) eqn:Ha.
    + rewrite (Hdc eq_refl eq_refl). cbn [rbind].
      destruct (field "dominantColors" (field "annotation" (field "details" p)))
        as [| |b|n|s|colors|props] eqn:Hcolors.
      * simpl. eauto.
      * simpl. eauto.
      * destruct b; [discriminate|]. simpl. eauto.
      * destruct (ToBoolean (VNum n)) eqn:Hn; [discriminate|]. eauto.
      * destruct (ToBoolean (VStr s)) eqn:Hs; [discriminate|]. eauto.
      * cbn [ToBoolean call_some].
        rewrite (someList_pure _ (colorNameMatches query)).
        -- simpl. eauto.
        -- intros x Hx. rewrite forallb_forall in Hc.
           rewrite (color_callback query x (Hc x Hx)). eauto.
      * discriminate.
    + cbn [rbind]. rewrite Ha. rewrite (field_falsy "dominantColors" _ Ha). eauto.
  - cbn [rbind]. rewrite Hd. cbn [rbind]. rewrite Hd.
    rewrite (field_falsy "annotation" _ Hd).
    change (field "dominantColors" VUndefined) with VUndefined. eauto.
Qed.

(** C5.  On paintings whose colours can be read, the colour selector
    returns exactly the paintings with a dominant colour whose name, in
    lower case and trimmed, contains the query in lower case; they are the
    payload of the answer.  The entry named "  Dark Red  " matches the query
    "dark red"; an entry without a name counts as the empty string and
    matches no query that is not empty. *)
Theorem paintings_by_color_name h data u name :
  dataset h filePaintings = Ok (VArr data) ->
  forallb colorsReadable data = true ->
  let req := request1 u "name" name in
  let selectedPaintings := filter (hasColor name) data in
  paintingsByColor (VArr data) req = Ok (VArr selectedPaintings) /\
  outcome (respond getPaintingsByColor h req) =
    Some (match selectedPaintings with [] => NotFound | _ => Found (VArr selectedPaintings) end) /\
  colorNameMatches "dark red" (VObj [("name", VStr "  Dark Red  ")]) = true /\
  (forall color query, lacks "name" color = true ->
     colorName color = EmptyString /\
     (query <> EmptyString -> colorNameMatches query color = false)).
Proof.
  intros Hd Hc req sel.
  assert (Hsel : paintingsByColor (VArr data) req = Ok (VArr sel)).
  { unfold paintingsByColor, req. rewrite param_request1.
    cbn [call_toLowerCase rbind call_filter].
    rewrite (filterList_pure _ (hasColor name)); [reflexivity|].
    intros x Hx. rewrite forallb_forall in Hc.
    apply painting_color_callback, Hc, Hx. }
  split; [exact Hsel|]. split; [|split].
  - unfold respond, getPaintingsByColor.
    apply (answer_of_list _ _ _ _ _ _ _ Hd Hsel).
  - reflexivity.
  - intros color query Hl.
    assert (Hn : colorName color = EmptyString).
    { unfold lacks in Hl. unfold colorName, field.
      destruct (get color "name") as [[| | | | | |]|]; try discriminate; reflexivity. }
    split; [exact Hn|]. intros Hq.
    unfold colorNameMatches. rewrite Hn.
    apply includes_empty_l, toLowerCase_nonempty, Hq.
Qed.

Lemma paintings_by_color_name_witness :
  let req := request1 "/api/painting/color/dark%20red" "name" "dark red" in
  paintingsByColor (VArr paintings) req = Ok (VArr [sunflowers]) /\
  outcome (respond getPaintingsByColor gallery1 req) = Some (Found (VArr [sunflowers])) /\
  colorNameMatches "dark red" (VObj [("name", VStr "  Dark Red  ")]) = true /\
  colorNameMatches "dark red" (VObj [("web", VStr "#8B0000")]) = false.
Proof.
  assert (Hq : "dark red" <> EmptyString) by discriminate.
  destruct (paintings_by_color_name gallery1 paintings "/api/painting/color/dark%20red"
              "dark red" eq_refl eq_refl) as (H1 & H2 & H3 & H4).
  split; [exact H1|]. split; [exact H2|]. split; [exact H3|].
  apply (H4 (VObj [("web", VStr "#8B0000")]) "dark red" eq_refl), Hq.
Defined.
(* ===================================================================== *)
(** * Every route is the pipeline                                         *)
(* ===================================================================== *)

Lemma Number_param req key : Number (param req key) = Ok (numberParam req key).
Proof.
  unfold numberParam, param.
  destruct (find _ (params req)); reflexivity.
Qed.

Lemma parseInt_param req key : parseInt (param req key) 10 = Ok (intParam req key).
Proof.
  unfold intParam, param.
  destruct (find _ (params req)); reflexivity.
Qed.

(** The painting-by-id route on any request: its own [catch] is not
    entered. *)
Lemma getPaintingById_pipeline h req w :
  getPaintingById h req w =
  handleApiRequest h (dirname h) filePaintings (paintingById (numberParam req "paintingID"))
    "Painting not found" req w.
Proof.
  unfold getPaintingById, try_catch, bind, lift.
  rewrite Number_param, handleApiRequest_run. reflexivity.
Qed.

Lemma getPaintingsByGallery_pipeline h req w :
  getPaintingsByGallery h req w =
  handleApiRequest h (dirname h) filePaintings (paintingsByGallery (intParam req "galleryID"))
    "No paintings found for the specified galleryID" req w.
Proof.
  unfold getPaintingsByGallery, try_catch, bind, lift.
  rewrite parseInt_param, handleApiRequest_run. reflexivity.
Qed.

(** Each route runs the pipeline once, on one file, with one selector. *)
Lemma route_is_pipeline name hd h req :
  In (name, hd) routes ->
  exists filename f errorMessage,
    forall w, hd h req w = handleApiRequest h (dirname h) filename f errorMessage req w.
Proof.
  unfold routes; simpl. intros H.
  repeat (destruct H as [[= <- <-]|H]); try (do 3 eexists; intros w; reflexivity).
  - do 3 eexists. intros w. apply getPaintingById_pipeline.
  - do 3 eexists. intros w. apply getPaintingsByGallery_pipeline.
  - destruct H.
Qed.

(** What the pipeline leaves behind when it starts on a fresh response. *)
Lemma pipeline_after h directory filename f errorMessage req log :
  snd (handleApiRequest h directory filename f errorMessage req (after log)) =
  match selected h directory filename f req with
  | Ok r =>
      if hasData r
      then {| res := {| statusCode := 200; contentType := Some "application/json";
                        sent := Some (Stringified r 2) |};
              console := log |}
      else {| res := {| statusCode := 404; contentType := Some "application/json";
                        sent := Some (Stringified
                                        (VObj [("error", VStr (notFoundMessage req))]) 0) |};
              console := log ++ [Info (notFoundMessage req)] |}
  | Throw e =>
      {| res := {| statusCode := 500; contentType := None;
                   sent := Some (Text "Internal Server Error") |};
         console := log ++ [Failure (errorMessage ++ ":") e] |}
  end.
Proof.
  rewrite handleApiRequest_run. simpl.
  destruct (selected h directory filename f req) as [r|e]; [|reflexivity].
  destruct (hasData r); reflexivity.
Qed.

(* ===================================================================== *)
(** * The shape of every answer                                           *)
(* ===================================================================== *)

(** X1.  Whatever the host, the status and the body of the answer a route
    gives to a request it handles are one of three: status 200 with the
    selection as JSON, which is then neither [undefined] nor an empty
    array; status 404 with the error object that names the request; status
    500 with the fixed text. *)
Theorem every_answer_has_one_of_three_shapes name hd h req :
  In (name, hd) routes -> Answer req (respond hd h req).
Proof.
  intros Hin.
  destruct (route_is_pipeline name hd h req Hin) as (filename & f & msg & Hrun).
  unfold respond. rewrite Hrun. change initial with (after []).
  rewrite pipeline_after.
  destruct (selected h (dirname h) filename f req) as [r|e].
  - destruct (hasData r) eqn:Hr.
    + apply answer_found. exact Hr.
    + apply answer_notFound.
  - apply answer_error.
Qed.

Lemma every_answer_has_one_of_three_shapes_witness :
  Answer (request1 "/api/painting/title/sun" "text" "sun")
    (respond getPaintingsByTitle museum (request1 "/api/painting/title/sun" "text" "sun")).
Proof.
  apply (every_answer_has_one_of_three_shapes "/api/painting/title/:text").
  unfold routes. do 9 right. left. reflexivity.
Defined.

(** X2.  A route that starts on a fresh response keeps what the console
    held and adds at most one entry: none when it answers 200, the not-found
    message when it answers 404, the failure when it answers 500.  The
    response does not depend on what the console held. *)
Theorem routes_append_to_the_console name hd h req log :
  In (name, hd) routes ->
  let w' := snd (hd h req (after log)) in
  res w' = respond hd h req /\
  exists entries,
    console w' = (log ++ entries)%list /\
    (statusCode (res w') = 200 -> entries = []) /\
    (statusCode (res w') = 404 -> entries = [Info (notFoundMessage req)]) /\
    (statusCode (res w') = 500 -> exists msg e, entries = [Failure msg e]).
Proof.
  intros Hin w'. subst w'.
  destruct (route_is_pipeline name hd h req Hin) as (filename & f & msg & Hrun).
  unfold respond. rewrite !Hrun. change initial with (after []).
  rewrite !pipeline_after.
  destruct (selected h (dirname h) filename f req) as [r|e].
  - destruct (hasData r).
    + split; [reflexivity|]. exists []. rewrite app_nil_r.
      repeat split; simpl; intros; try discriminate; reflexivity.
    + split; [reflexivity|]. eexists. split; [reflexivity|].
      repeat split; simpl; intros; try discriminate; reflexivity.
  - split; [reflexivity|]. eexists. split; [reflexivity|].
    repeat split; simpl; intros; try discriminate. eauto.
Qed.

Lemma routes_append_to_the_console_witness :
  let log := [Info "Received request: GET /api/painting/99"] in
  let w' := snd (getPaintingById gallery1 (request1 "/api/painting/99" "paintingID" "99")
                   (after log)) in
  statusCode (res w') = 404 /\
  console w' = [Info "Received request: GET /api/painting/99";
                Info "No data found for the specified criteria in /api/painting/99"].
Proof.
  destruct (routes_append_to_the_console "/api/painting/:paintingID" getPaintingById gallery1
              (request1 "/api/painting/99" "paintingID" "99")
              [Info "Received request: GET /api/painting/99"]) as (_ & entries & Hc & _ & H404 & _).
  { unfold routes. do 5 right. left. reflexivity. }
  split; [reflexivity|].
  rewrite Hc, (H404 eq_refl). reflexivity.
Defined.

(** X3.  The middleware writes the request line before the route runs and
    changes nothing else: the response is the one the route gives alone,
    and the console holds the request line followed by what the route
    writes. *)
Theorem middleware_logs_first name hd method h req :
  In (name, hd) routes ->
  let w' := snd (logRequests method req (hd h req) initial) in
  fst (logRequests method req (hd h req) initial) = Ok tt /\
  res w' = respond hd h req /\
  console w' =
    Info ("Received request: " ++ method ++ " " ++ url req) ::
    console (snd (hd h req initial)).
Proof.
  intros Hin w'. subst w'.
  destruct (route_is_pipeline name hd h req Hin) as (filename & f & msg & Hrun).
  unfold respond.
  change (logRequests method req (hd h req) initial)
    with (hd h req (after [Info ("Received request: " ++ method ++ " " ++ url req)])).
  rewrite !Hrun. change initial with (after []).
  split; [rewrite handleApiRequest_run; reflexivity|].
  rewrite !pipeline_after.
  destruct (selected h (dirname h) filename f req) as [r|e].
  - destruct (hasData r); split; reflexivity.
  - split; reflexivity.
Qed.

Lemma middleware_logs_first_witness :
  let req := request1 "/api/painting/99" "paintingID" "99" in
  let w' := snd (logRequests "GET" req (getPaintingById gallery1 req) initial) in
  statusCode (res w') = 404 /\
  console w' = [Info "Received request: GET /api/painting/99";
                Info "No data found for the specified criteria in /api/painting/99"].
Proof.
  destruct (middleware_logs_first "/api/painting/:paintingID" getPaintingById "GET" gallery1
              (request1 "/api/painting/99" "paintingID" "99")) as (_ & Hr & Hc).
  { unfold routes. do 5 right. left. reflexivity. }
  split; [rewrite Hr; reflexivity|].
  rewrite Hc. reflexivity.
Defined.

(** X4.  The painting-by-id route and the paintings-by-gallery route convert
    their parameter without an exception, on every request, so the [catch]
    around them is never entered: each is the pipeline alone, and neither
    writes "Error reading JSON file:" to the console. *)
Theorem outer_catch_is_never_entered h req w :
  getPaintingById h req w =
    handleApiRequest h (dirname h) filePaintings (paintingById (numberParam req "paintingID"))
      "Painting not found" req w /\
  getPaintingsByGallery h req w =
    handleApiRequest h (dirname h) filePaintings (paintingsByGallery (intParam req "galleryID"))
      "No paintings found for the specified galleryID" req w /\
  (forall e,
     ~ In (Failure "Error reading JSON file:" e) (console w) ->
     ~ In (Failure "Error reading JSON file:" e) (console (snd (getPaintingById h req w))) /\
     ~ In (Failure "Error reading JSON file:" e) (console (snd (getPaintingsByGallery h req w)))).
Proof.
  split; [apply getPaintingById_pipeline|].
  split; [apply getPaintingsByGallery_pipeline|].
  intros e Hw.
  rewrite getPaintingById_pipeline, getPaintingsByGallery_pipeline, !handleApiRequest_run.
  simpl snd.
  split.
  - destruct (selected _ _ _ (paintingById _) _) as [r|e0]; [destruct (hasData r)|];
      simpl; try exact Hw; rewrite in_app_iff; simpl; intros [H|[H|[]]];
      try (apply Hw, H); discriminate.
  - destruct (selected _ _ _ (paintingsByGallery _) _) as [r|e0]; [destruct (hasData r)|];
      simpl; try exact Hw; rewrite in_app_iff; simpl; intros [H|[H|[]]];
      try (apply Hw, H); discriminate.
Qed.

Lemma outer_catch_is_never_entered_witness :
  let req := {| url := "/api/painting/"; params := [] |} in
  console (snd (getPaintingById (serving []) req initial)) =
    [Failure "Painting not found:" (SystemError "ENOENT")] /\
  ~ In (Failure "Error reading JSON file:" (SystemError "ENOENT"))
       (console (snd (getPaintingById (serving []) req initial))).
Proof.
  destruct (outer_catch_is_never_entered (serving [])
              {| url := "/api/painting/"; params := [] |} initial) as (H & _ & Hlog).
  split; [rewrite H; reflexivity|].
  apply (Hlog (SystemError "ENOENT")). intros [].
Defined.

(* ===================================================================== *)
(** * What a selection is made of                                         *)
(* ===================================================================== *)

Section Selections.

Variable cb : value -> result value.

Lemma filterList_Subsequence l k : filterList cb l = Ok k -> Subsequence k l.
Proof.
  revert k. induction l as [|x l IH]; simpl; intros k.
  - intros [= <-]. constructor.
  - destruct (cb x) as [v|]; simpl; [|discriminate].
    destruct (filterList cb l) as [k'|]; simpl; [|discriminate].
    intros [= <-]. destruct (ToBoolean v); constructor; apply IH; reflexivity.
Qed.

(** Filtering what a filter kept keeps all of it. *)
Lemma filterList_again l k : filterList cb l = Ok k -> filterList cb k = Ok k.
Proof.
  revert k. induction l as [|x l IH]; simpl; intros k.
  - intros [= <-]. reflexivity.
  - destruct (cb x) as [v|] eqn:Hx; simpl; [|discriminate].
    destruct (filterList cb l) as [k'|]; simpl; [|discriminate].
    intros [= <-]. specialize (IH k' eq_refl).
    destruct (ToBoolean v) eqn:Hv; [|exact IH].
    simpl. rewrite Hx. simpl. rewrite IH. simpl. rewrite Hv. reflexivity.
Qed.

Lemma call_filter_selection data r :
  call_filter (VArr data) cb = Ok r ->
  exists l, r = VArr l /\ Subsequence l data /\ call_filter (VArr l) cb = Ok (VArr l).
Proof.
  simpl. destruct (filterList cb data) as [k|] eqn:Hk; simpl; [|discriminate].
  intros [= <-]. exists k. split; [reflexivity|]. split.
  - apply filterList_Subsequence, Hk.
  - rewrite (filterList_again _ _ Hk). reflexivity.
Qed.

Lemma findList_member l r : findList cb l = Ok r -> r = VUndefined \/ In r l.
Proof.
  induction l as [|x l IH]; simpl.
  - intros [= <-]. left. reflexivity.
  - destruct (cb x) as [v|]; simpl; [|discriminate].
    destruct (ToBoolean v).
    + intros [= <-]. right. left. reflexivity.
    + intros H. destruct (IH H) as [->|Hin]; [left; reflexivity|right; right; exact Hin].
Qed.

End Selections.

Lemma Subsequence_In k l x : Subsequence k l -> In x k -> In x l.
Proof.
  induction 1 as [|y k l _ IH|y k l _ IH]; simpl; intuition.
Qed.

(** A selector that filters, applied to an array. *)
Lemma filterSelectors_selection n sel data req r :
  In sel (filterSelectors n) ->
  sel (VArr data) req = Ok r ->
  exists l, r = VArr l /\ Subsequence l data /\ sel (VArr l) req = Ok (VArr l).
Proof.
  unfold filterSelectors; simpl. intros H.
  repeat (destruct H as [<-|H]); try destruct H.
  - unfold artistsByCountry.
    destruct (call_toLowerCase (param req "country")); simpl; [|discriminate].
    apply call_filter_selection.
  - unfold galleriesByCountry.
    destruct (call_toLowerCase (param req "country")); simpl; [|discriminate].
    apply call_filter_selection.
  - unfold paintingsByGallery. apply call_filter_selection.
  - unfold paintingsByArtist. rewrite parseInt_param. cbn [rbind].
    apply call_filter_selection.
  - unfold paintingsByYear. rewrite !parseInt_param. cbn [rbind].
    apply call_filter_selection.
  - unfold paintingsByTitle.
    destruct (call_toLowerCase (param req "text")); simpl; [|discriminate].
    apply call_filter_selection.
  - unfold paintingsByColor.
    destruct (call_toLowerCase (param req "name")); simpl; [|discriminate].
    apply call_filter_selection.
Qed.

(** X5.  A selector that filters returns records of the dataset, in the
    order of the dataset, and nothing else; the painting-by-id selector
    returns a record of the dataset or [undefined]. *)
Theorem selections_come_from_the_dataset data req :
  (forall n sel r,
     In sel (filterSelectors n) ->
     sel (VArr data) req = Ok r ->
     exists l, r = VArr l /\ Subsequence l data /\ (forall p, In p l -> In p data)) /\
  (forall n r,
     paintingById n (VArr data) req = Ok r ->
     r = VUndefined \/ In r data).
Proof.
  split.
  - intros n sel r Hin Hsel.
    destruct (filterSelectors_selection n sel data req r Hin Hsel) as (l & -> & Hsub & _).
    exists l. split; [reflexivity|]. split; [exact Hsub|].
    intros p. apply Subsequence_In, Hsub.
  - intros n r. unfold paintingById, call_find.
    destruct (findList _ data) as [x|] eqn:Hf; simpl; [|discriminate].
    intros [= <-]. eapply findList_member, Hf.
Qed.

Lemma selections_come_from_the_dataset_witness :
  exists l,
    VArr [sunflowers] = VArr l /\ Subsequence l paintings /\
    (forall p, In p l -> In p paintings).
Proof.
  destruct (selections_come_from_the_dataset paintings
              (request1 "/api/painting/title/sun" "text" "sun")) as [H _].
  apply (H NaN paintingsByTitle (VArr [sunflowers])).
  - unfold filterSelectors. do 5 right. left. reflexivity.
  - reflexivity.
Defined.

(** X6.  Selecting again from a selection changes nothing: a selector that
    filters, applied to the array it returned for a request, returns that
    array. *)
Theorem selecting_twice_is_selecting_once n sel data req l :
  In sel (filterSelectors n) ->
  sel (VArr data) req = Ok (VArr l) ->
  sel (VArr l) req = Ok (VArr l).
Proof.
  intros Hin Hsel.
  destruct (filterSelectors_selection n sel data req (VArr l) Hin Hsel) as (l' & [= <-] & _ & H).
  exact H.
Qed.

Lemma selecting_twice_is_selecting_once_witness :
  paintingsByYear (VArr [sunflowers]) (yearRequest "/api/painting/year/1950/2000" "1950" "2000") =
  Ok (VArr [sunflowers]).
Proof.
  apply (selecting_twice_is_selecting_once NaN paintingsByYear paintings).
  - unfold filterSelectors. do 4 right. left. reflexivity.
  - reflexivity.
Defined.

(* ===================================================================== *)
(** * Paintings by gallery and by artist                                  *)
(* ===================================================================== *)

Lemma get_notNullish p key : nullish p = false -> get p key = Ok (field key p).
Proof.
  unfold field. destruct p; simpl; try discriminate; intros _; try reflexivity.
  destruct (lookup key props); reflexivity.
Qed.

(** The callback of the gallery and artist filters: read the nested record
    if it is truthy, then compare its id. *)
Lemma nested_id_callback outer inner n p :
  nullish p = false ->
  exists v,
    (get p outer &&&
     (let* record := get p outer in
      let* id := get record inner in
      Ok (VBool (strictEqualsNumber id n)))) = Ok v /\
    ToBoolean v = ToBoolean (field outer p) && strictEqualsNumber (field inner (field outer p)) n.
Proof.
  intros Hp. unfold andAlso. rewrite (get_notNullish p outer Hp). cbn [rbind].
  destruct (ToBoolean (field outer p)) eqn:Ht.
  - rewrite (get_truthy inner _ Ht). simpl. eauto.
  - eexists. split; [reflexivity|]. exact Ht.
Qed.

(** X7.  On a dataset without [null] entries the paintings-by-gallery
    selector never throws, whatever the shape of the records: it returns
    exactly the paintings with a truthy [gallery] whose [galleryID] is the
    Number that [parseInt] reads from the parameter; they are the payload of
    the answer, and the answer is 404 when there is none. *)
Theorem paintings_by_gallery h data req :
  forallb (fun p => negb (nullish p)) data = true ->
  let n := intParam req "galleryID" in
  let selectedPaintings := filter (inGallery n) data in
  paintingsByGallery n (VArr data) req = Ok (VArr selectedPaintings) /\
  (dataset h filePaintings = Ok (VArr data) ->
   outcome (respond getPaintingsByGallery h req) =
     Some (match selectedPaintings with [] => NotFound | _ => Found (VArr selectedPaintings) end)).
Proof.
  intros Hnn n sel.
  assert (Hsel : paintingsByGallery n (VArr data) req = Ok (VArr sel)).
  { unfold paintingsByGallery, call_filter.
    rewrite (filterList_pure _ (inGallery n)); [reflexivity|].
    intros x Hx. rewrite forallb_forall in Hnn. specialize (Hnn x Hx).
    apply nested_id_callback. now destruct (nullish x). }
  split; [exact Hsel|]. intros Hd.
  unfold respond. rewrite getPaintingsByGallery_pipeline.
  apply (answer_of_list _ _ _ _ _ _ _ Hd Hsel).
Qed.

Lemma paintings_by_gallery_witness :
  let req := request1 "/api/painting/gallery/3" "galleryID" "3" in
  let data := [VStr "not a record"; starryNight; VObj [("gallery", VStr "Louvre")]] in
  paintingsByGallery (ofZ 3) (VArr data) req = Ok (VArr [starryNight]) /\
  outcome (respond getPaintingsByGallery (serving [(filePaintings, VArr data)]) req) =
    Some (Found (VArr [starryNight])).
Proof.
  destruct (paintings_by_gallery
              (serving [(filePaintings,
                         VArr [VStr "not a record"; starryNight; VObj [("gallery", VStr "Louvre")]])])
              [VStr "not a record"; starryNight; VObj [("gallery", VStr "Louvre")]]
              (request1 "/api/painting/gallery/3" "galleryID" "3") eq_refl) as [H1 H2].
  split; [exact H1|]. apply H2. reflexivity.
Defined.

(** X8.  The same holds for the paintings-by-artist selector, with
    [artist] and [artistID]. *)
Theorem paintings_by_artist h data req :
  forallb (fun p => negb (nullish p)) data = true ->
  let n := intParam req "artistID" in
  let selectedPaintings := filter (byArtist n) data in
  paintingsByArtist (VArr data) req = Ok (VArr selectedPaintings) /\
  (dataset h filePaintings = Ok (VArr data) ->
   outcome (respond getPaintingsByArtist h req) =
     Some (match selectedPaintings with [] => NotFound | _ => Found (VArr selectedPaintings) end)).
Proof.
  intros Hnn n sel.
  assert (Hsel : paintingsByArtist (VArr data) req = Ok (VArr sel)).
  { unfold paintingsByArtist. rewrite parseInt_param. cbn [rbind call_filter].
    rewrite (filterList_pure _ (byArtist n)); [reflexivity|].
    intros x Hx. rewrite forallb_forall in Hnn. specialize (Hnn x Hx).
    apply nested_id_callback. now destruct (nullish x). }
  split; [exact Hsel|]. intros Hd.
  unfold respond, getPaintingsByArtist.
  apply (answer_of_list _ _ _ _ _ _ _ Hd Hsel).
Qed.

Lemma paintings_by_artist_witness :
  let req := request1 "/api/painting/artist/7" "artistID" "7" in
  paintingsByArtist (VArr paintings) req = Ok (VArr [starryNight]) /\
  outcome (respond getPaintingsByArtist gallery1 req) = Some (Found (VArr [starryNight])).
Proof.
  destruct (paintings_by_artist gallery1 paintings
              (request1 "/api/painting/artist/7" "artistID" "7") eq_refl) as [H1 H2].
  split; [exact H1|]. apply H2. reflexivity.
Defined.

(* ===================================================================== *)
(** * Datasets of an unexpected shape                                     *)
(* ===================================================================== *)

(** The pipeline answers 500 when the selector throws on the dataset. *)
Lemma answer_of_throw h filename f errorMessage req doc e :
  dataset h filename = Ok doc ->
  f doc req = Throw e ->
  let r := res (snd (handleApiRequest h (dirname h) filename f errorMessage req initial)) in
  statusCode r = 500 /\ outcome r = Some Error.
Proof.
  intros Hd Hf r. subst r.
  rewrite handleApiRequest_run, selected_dataset, Hd. simpl. rewrite Hf.
  split; reflexivity.
Qed.

Lemma call_filter_needs_array doc cb :
  isArray doc = false -> exists e, call_filter doc cb = Throw e.
Proof. destruct doc; simpl; try discriminate; intros _; unfold noProperties, notAFunction; eauto. Qed.

Lemma filterSelectors_need_array n sel doc req :
  In sel (filterSelectors n) -> isArray doc = false -> exists e, sel doc req = Throw e.
Proof.
  unfold filterSelectors; simpl. intros H Hdoc.
  repeat (destruct H as [<-|H]); try destruct H.
  - unfold artistsByCountry.
    destruct (call_toLowerCase (param req "country")); simpl; eauto.
    apply call_filter_needs_array, Hdoc.
  - unfold galleriesByCountry.
    destruct (call_toLowerCase (param req "country")); simpl; eauto.
    apply call_filter_needs_array, Hdoc.
  - unfold paintingsByGallery. apply call_filter_needs_array, Hdoc.
  - unfold paintingsByArtist. rewrite parseInt_param. cbn [rbind].
    apply call_filter_needs_array, Hdoc.
  - unfold paintingsByYear. rewrite !parseInt_param. cbn [rbind].
    apply call_filter_needs_array, Hdoc.
  - unfold paintingsByTitle.
    destruct (call_toLowerCase (param req "text")); simpl; eauto.
    apply call_filter_needs_array, Hdoc.
  - unfold paintingsByColor.
    destruct (call_toLowerCase (param req "name")); simpl; eauto.
    apply call_filter_needs_array, Hdoc.
Qed.

(** X9.  A dataset that is not an array (an object, a string, a number,
    [null]) makes every selector that filters, and the painting-by-id
    selector, throw: the request is answered 500, whichever file and error
    message the selector runs with.  The routes that return the whole
    dataset serve such a document with status 200. *)
Theorem dataset_must_be_an_array n sel doc req :
  In sel (paintingById n :: filterSelectors n) ->
  isArray doc = false ->
  (exists e, sel doc req = Throw e) /\
  (forall h filename errorMessage,
     dataset h filename = Ok doc ->
     let r := res (snd (handleApiRequest h (dirname h) filename sel errorMessage req initial)) in
     statusCode r = 500 /\ outcome r = Some Error) /\
  (forall h filename errorMessage,
     dataset h filename = Ok doc -> doc <> VUndefined ->
     outcome (res (snd (handleApiRequest h (dirname h) filename selectAll errorMessage req initial))) =
     Some (Found doc)).
Proof.
  intros Hin Hdoc.
  assert (Hthrow : exists e, sel doc req = Throw e).
  { destruct Hin as [<-|Hin].
    - unfold paintingById, call_find.
      destruct doc; simpl; try discriminate; unfold noProperties, notAFunction; simpl; eauto.
    - eapply filterSelectors_need_array; eauto. }
  split; [exact Hthrow|]. split.
  - intros h filename msg Hd. destruct Hthrow as (e & He).
    apply (answer_of_throw _ _ _ _ _ _ _ Hd He).
  - intros h filename msg Hd Hu.
    assert (Hsel : selectAll doc req = Ok doc) by reflexivity.
    rewrite (answer_of_selection _ _ _ _ _ _ _ Hd Hsel).
    destruct doc; try discriminate; try reflexivity. congruence.
Qed.

Lemma dataset_must_be_an_array_witness :
  let h := serving [(filePaintings, VObj [("paintings", VArr paintings)])] in
  outcome (respond getPaintingsByTitle h (request1 "/api/painting/title/sun" "text" "sun")) =
    Some Error /\
  outcome (respond getPaintings h {| url := "/api/paintings"; params := [] |}) =
    Some (Found (VObj [("paintings", VArr paintings)])).
Proof.
  destruct (dataset_must_be_an_array NaN paintingsByTitle
              (VObj [("paintings", VArr paintings)])
              (request1 "/api/painting/title/sun" "text" "sun")) as (_ & H1 & _).
  { unfold filterSelectors. do 6 right. left. reflexivity. }
  { reflexivity. }
  destruct (dataset_must_be_an_array NaN paintingsByTitle
              (VObj [("paintings", VArr paintings)])
              {| url := "/api/paintings"; params := [] |}) as (_ & _ & H2).
  { unfold filterSelectors. do 6 right. left. reflexivity. }
  { reflexivity. }
  split.
  - apply (H1 (serving [(filePaintings, VObj [("paintings", VArr paintings)])]) filePaintings
              "Error getting paintings by title" eq_refl).
  - apply (H2 (serving [(filePaintings, VObj [("paintings", VArr paintings)])]) filePaintings
              "Error getting paintings" eq_refl). discriminate.
Defined.

(** The callback of every filter reads a property of the record first. *)
Lemma filterSelectors_null n sel data req :
  In sel (filterSelectors n) -> In VNull data -> exists e, sel (VArr data) req = Throw e.
Proof.
  unfold filterSelectors; simpl. intros H Hnull.
  assert (Hpoison : forall cb, (exists e, cb VNull = Throw e) ->
                               exists e, call_filter (VArr data) cb = Throw e).
  { intros cb (e & He). simpl.
    destruct (filterList_throws cb data VNull e Hnull He) as (e' & ->). simpl. eauto. }
  repeat (destruct H as [<-|H]); try destruct H.
  - unfold artistsByCountry.
    destruct (call_toLowerCase (param req "country")); simpl; eauto.
    apply Hpoison. simpl. eauto.
  - unfold galleriesByCountry.
    destruct (call_toLowerCase (param req "country")); simpl; eauto.
    apply Hpoison. simpl. eauto.
  - unfold paintingsByGallery. apply Hpoison. simpl. eauto.
  - unfold paintingsByArtist. rewrite parseInt_param. cbn [rbind].
    apply Hpoison. simpl. eauto.
  - unfold paintingsByYear. rewrite !parseInt_param. cbn [rbind].
    apply Hpoison. simpl. eauto.
  - unfold paintingsByTitle.
    destruct (call_toLowerCase (param req "text")); simpl; eauto.
    apply Hpoison. simpl. eauto.
  - unfold paintingsByColor.
    destruct (call_toLowerCase (param req "name")); simpl; eauto.
    apply Hpoison. simpl. eauto.
Qed.

(** X10.  One [null] entry anywhere in the dataset makes every selector
    that filters throw, whatever the request and the other entries: the
    request is answered 500. *)
Theorem a_null_entry_fails_every_filter n sel data req :
  In sel (filterSelectors n) ->
  In VNull data ->
  (exists e, sel (VArr data) req = Throw e) /\
  (forall h filename errorMessage,
     dataset h filename = Ok (VArr data) ->
     let r := res (snd (handleApiRequest h (dirname h) filename sel errorMessage req initial)) in
     statusCode r = 500 /\ outcome r = Some Error).
Proof.
  intros Hin Hnull.
  destruct (filterSelectors_null n sel data req Hin Hnull) as (e & He).
  split; [eauto|]. intros h filename msg Hd.
  apply (answer_of_throw _ _ _ _ _ _ _ Hd He).
Qed.

Lemma a_null_entry_fails_every_filter_witness :
  let h := serving [(filePaintings, VArr [starryNight; VNull; sunflowers])] in
  let r := respond getPaintingsByYear h (yearRequest "/api/painting/year/1880/1890" "1880" "1890") in
  statusCode r = 500 /\ outcome r = Some Error.
Proof.
  destruct (a_null_entry_fails_every_filter NaN paintingsByYear [starryNight; VNull; sunflowers]
              (yearRequest "/api/painting/year/1880/1890" "1880" "1890")) as [_ H].
  { unfold filterSelectors. do 4 right. left. reflexivity. }
  { right. left. reflexivity. }
  apply (H (serving [(filePaintings, VArr [starryNight; VNull; sunflowers])]) filePaintings
           "Error getting paintings by year range" eq_refl).
Defined.

(** X11.  The painting-by-id selector stops at the first match: when no
    entry before [p] is [null], [undefined] or a match, and [p] carries the
    id, it returns [p] whatever follows [p], even entries on which the
    other selectors throw. *)
Theorem painting_by_id_stops_at_the_first_match n before p rest req :
  forallb (fun q => negb (nullish q) && negb (hasId n q)) before = true ->
  hasId n p = true ->
  paintingById n (VArr (before ++ p :: rest)) req = Ok p /\
  (forall h,
     dataset h filePaintings = Ok (VArr (before ++ p :: rest)) ->
     outcome (res (snd (handleApiRequest h (dirname h) filePaintings (paintingById n)
                          "Painting not found" req initial))) = Some (Found p)).
Proof.
  intros Hb Hp.
  assert (Hnn : nullish p = false).
  { unfold hasId, field in Hp. destruct p; try reflexivity; discriminate. }
  assert (Hsel : paintingById n (VArr (before ++ p :: rest)) req = Ok p).
  { unfold paintingById, call_find.
    induction before as [|q l IH]; simpl.
    - rewrite (get_notNullish p "paintingID" Hnn). simpl.
      unfold hasId in Hp. rewrite Hp. reflexivity.
    - simpl in Hb. apply andb_prop in Hb. destruct Hb as [Hq Hl].
      apply andb_prop in Hq. destruct Hq as [Hq1 Hq2].
      rewrite (get_notNullish q "paintingID") by (now destruct (nullish q)). simpl.
      unfold hasId in Hq2. destruct (strictEqualsNumber (field "paintingID" q) n); [discriminate|].
      apply IH, Hl. }
  split; [exact Hsel|]. intros h Hd.
  rewrite (answer_of_selection _ _ _ _ _ _ _ Hd Hsel).
  destruct p; try discriminate; reflexivity.
Qed.

Lemma painting_by_id_stops_at_the_first_match_witness :
  paintingById (ofZ 1) (VArr ([] ++ starryNight :: [VNull; sunflowers]))
    (request1 "/api/painting/1" "paintingID" "1") = Ok starryNight /\
  outcome (respond getPaintingById
             (serving [(filePaintings, VArr [starryNight; VNull; sunflowers])])
             (request1 "/api/painting/1" "paintingID" "1")) = Some (Found starryNight).
Proof.
  destruct (painting_by_id_stops_at_the_first_match (ofZ 1) [] starryNight [VNull; sunflowers]
              (request1 "/api/painting/1" "paintingID" "1") eq_refl eq_refl) as [H1 H2].
  split; [exact H1|].
  unfold respond. rewrite getPaintingById_pipeline.
  apply (H2 (serving [(filePaintings, VArr [starryNight; VNull; sunflowers])]) eq_refl).
Defined.

(* ===================================================================== *)
(** * Order of Numbers                                                    *)
(* ===================================================================== *)

Lemma Pos_compare_cont_Eq a b : Pos.compare_cont Eq a b = Pos.compare a b.
Proof. reflexivity. Qed.

Ltac order_cases :=
  repeat match goal with
    | |- context [(?a ?= ?b)%Z] => destruct (Z.compare_spec a b); subst
    | H : context [(?a ?= ?b)%Z] |- _ => destruct (Z.compare_spec a b); subst
    | |- context [Pos.compare ?a ?b] => destruct (Pos.compare_spec a b); subst
    | H : context [Pos.compare ?a ?b] |- _ => destruct (Pos.compare_spec a b); subst
    end;
  simpl in *; try discriminate; try reflexivity; try lia.

Lemma numLe_trans x y z : numLe x y = true -> numLe y z = true -> numLe x z = true.
Proof.
  unfold numLe, SFleb, SFcompare.
  destruct x as [sx|sx| |sx mx ex], y as [sy|sy| |sy my ey], z as [sz|sz| |sz mz ez];
    try discriminate; try reflexivity;
    repeat match goal with s : bool |- _ => destruct s end;
    try discriminate; try reflexivity;
    intros H1 H2; simpl in *; rewrite ?Pos_compare_cont_Eq in *; order_cases.
Qed.

Lemma numLe_not_gt x y : numLe x y = true -> SFltb y x = false.
Proof.
  unfold numLe, SFleb, SFltb, SFcompare.
  destruct x as [sx|sx| |sx mx ex], y as [sy|sy| |sy my ey];
    try discriminate; try reflexivity;
    repeat match goal with s : bool |- _ => destruct s end;
    try discriminate; try reflexivity;
    intros H1; simpl in *; rewrite ?Pos_compare_cont_Eq in *; order_cases.
Qed.

(* ===================================================================== *)
(** * Bounds of the year range                                            *)
(* ===================================================================== *)

Lemma filter_Subsequence (P Q : value -> bool) l :
  (forall x, In x l -> P x = true -> Q x = true) ->
  Subsequence (filter P l) (filter Q l).
Proof.
  induction l as [|x l IH]; intros H; simpl.
  - constructor.
  - assert (IH' : Subsequence (filter P l) (filter Q l)).
    { apply IH. intros y Hy. apply H. right. exact Hy. }
    destruct (P x) eqn:HP.
    + rewrite (H x (or_introl eq_refl) HP). constructor. exact IH'.
    + destruct (Q x); [constructor|]; exact IH'.
Qed.

Lemma inYearRange_bounds lo hi p :
  inYearRange lo hi p = true ->
  exists y, yearOf p = Ok y /\ numLe lo y = true /\ numLe y hi = true.
Proof.
  unfold inYearRange. intros H. apply andb_prop in H. destruct H as [_ H].
  destruct (yearOf p) as [y|]; [|discriminate].
  apply andb_prop in H. destruct H as [H1 H2]. exists y. auto.
Qed.

(** X12.  On paintings whose year can be read: when the upper bound is
    below the lower bound no painting is selected; and a range that
    contains another selects every painting the other selects, in the same
    order. *)
Theorem year_range_bounds data u lo hi :
  forallb yearReadable data = true ->
  (SFltb (parseIntString hi 10) (parseIntString lo 10) = true ->
     paintingsByYear (VArr data) (yearRequest u lo hi) = Ok (VArr [])) /\
  (forall u' lo' hi',
     numLe (parseIntString lo' 10) (parseIntString lo 10) = true ->
     numLe (parseIntString hi 10) (parseIntString hi' 10) = true ->
     exists narrow wide,
       paintingsByYear (VArr data) (yearRequest u lo hi) = Ok (VArr narrow) /\
       paintingsByYear (VArr data) (yearRequest u' lo' hi') = Ok (VArr wide) /\
       Subsequence narrow wide).
Proof.
  intros Hr. split.
  - intros Hinv. rewrite (paintingsByYear_readable data u lo hi Hr). do 2 f_equal.
    clear Hr. induction data as [|p l IH]; simpl; [reflexivity|].
    destruct (inYearRange (parseIntString lo 10) (parseIntString hi 10) p) eqn:Hp; [|exact IH].
    destruct (inYearRange_bounds _ _ _ Hp) as (y & _ & H1 & H2).
    pose proof (numLe_not_gt _ _ (numLe_trans _ _ _ H1 H2)). congruence.
  - intros u' lo' hi' Hlo Hhi.
    do 2 eexists. split; [apply paintingsByYear_readable, Hr|].
    split; [apply paintingsByYear_readable, Hr|].
    apply filter_Subsequence. intros p _ Hp.
    destruct (inYearRange_bounds _ _ _ Hp) as (y & Hy & H1 & H2).
    unfold inYearRange in *. apply andb_prop in Hp. destruct Hp as [Ht _].
    rewrite Ht, Hy. simpl. unfold numGe.
    change (SFleb (parseIntString lo' 10) y) with (numLe (parseIntString lo' 10) y).
    rewrite (numLe_trans _ _ _ Hlo H1), (numLe_trans _ _ _ H2 Hhi). reflexivity.
Qed.

Lemma year_range_bounds_witness :
  paintingsByYear (VArr paintings) (yearRequest "/api/painting/year/1990/1880" "1990" "1880") =
    Ok (VArr []) /\
  exists narrow wide,
    paintingsByYear (VArr paintings) (yearRequest "/api/painting/year/1880/1890" "1880" "1890") =
      Ok (VArr narrow) /\
    paintingsByYear (VArr paintings) (yearRequest "/api/painting/year/1800/2000" "1800" "2000") =
      Ok (VArr wide) /\
    Subsequence narrow wide.
Proof.
  split.
  - apply (proj1 (year_range_bounds paintings "/api/painting/year/1990/1880" "1990" "1880" eq_refl)).
    reflexivity.
  - apply (proj2 (year_range_bounds paintings "/api/painting/year/1880/1890" "1880" "1890" eq_refl)
             "/api/painting/year/1800/2000" "1800" "2000"); reflexivity.
Defined.

(* ===================================================================== *)
(** * Text queries                                                        *)
(* ===================================================================== *)

(** X13.  The title route and the colour route use their query through its
    lower case only: two queries with the same lower case give the same
    selection on every dataset, and the same outcome; and two stored titles
    with the same lower case pass the title test for the same queries. *)
Theorem text_queries_count_by_lower_case q1 q2 :
  toLowerCase q1 = toLowerCase q2 ->
  (forall data u1 u2,
     paintingsByTitle data (request1 u1 "text" q1) =
     paintingsByTitle data (request1 u2 "text" q2)) /\
  (forall data u1 u2,
     paintingsByColor data (request1 u1 "name" q1) =
     paintingsByColor data (request1 u2 "name" q2)) /\
  (forall h u1 u2,
     outcome (respond getPaintingsByTitle h (request1 u1 "text" q1)) =
     outcome (respond getPaintingsByTitle h (request1 u2 "text" q2))) /\
  (forall h u1 u2,
     outcome (respond getPaintingsByColor h (request1 u1 "name" q1)) =
     outcome (respond getPaintingsByColor h (request1 u2 "name" q2))) /\
  (forall text p1 p2,
     field "title" p1 = VStr q1 -> field "title" p2 = VStr q2 ->
     titleContains text p1 = titleContains text p2).
Proof.
  intros Hc.
  assert (Ht : forall data u1 u2,
             paintingsByTitle data (request1 u1 "text" q1) =
             paintingsByTitle data (request1 u2 "text" q2)).
  { intros. unfold paintingsByTitle. rewrite !param_request1.
    cbn [call_toLowerCase rbind]. rewrite Hc. reflexivity. }
  assert (Hn : forall data u1 u2,
             paintingsByColor data (request1 u1 "name" q1) =
             paintingsByColor data (request1 u2 "name" q2)).
  { intros. unfold paintingsByColor. rewrite !param_request1.
    cbn [call_toLowerCase rbind]. rewrite Hc. reflexivity. }
  repeat split; auto.
  - intros h u1 u2. apply outcome_ext. intros doc. apply Ht.
  - intros h u1 u2. apply outcome_ext. intros doc. apply Hn.
  - intros text p1 p2 H1 H2. unfold titleContains. rewrite H1, H2, Hc. reflexivity.
Qed.

Lemma text_queries_count_by_lower_case_witness :
  paintingsByTitle (VArr paintings) (request1 "/api/painting/title/SUN" "text" "SUN") =
  paintingsByTitle (VArr paintings) (request1 "/api/painting/title/sun" "text" "sun") /\
  paintingsByColor (VArr paintings) (request1 "/api/painting/color/NAVY" "name" "NAVY") =
  paintingsByColor (VArr paintings) (request1 "/api/painting/color/navy" "name" "navy").
Proof.
  split.
  - apply (proj1 (text_queries_count_by_lower_case "SUN" "sun" eq_refl)).
  - apply (proj1 (proj2 (text_queries_count_by_lower_case "NAVY" "navy" eq_refl))).
Defined.

Lemma prefix_app q s : prefix q s = true <-> exists b, s = q ++ b.
Proof.
  revert s. induction q as [|c q IH]; intros s; simpl.
  - split; [intros _; exists s; reflexivity|]. intros _. destruct s; reflexivity.
  - destruct s as [|d s]; simpl.
    + split; [discriminate|]. intros (b & Hb). discriminate.
    + destruct (ascii_dec c d) as [->|Hcd].
      * rewrite IH. split; intros (b & Hb); exists b; congruence.
      * split; [discriminate|]. intros (b & [= Hd _]). congruence.
Qed.

Lemma includes_spec s q : includes s q = true <-> exists a b, s = a ++ q ++ b.
Proof.
  split.
  - induction s as [|c s IH]; cbn [includes].
    + rewrite orb_false_r. intros H. apply prefix_app in H. destruct H as (b & Hb).
      exists EmptyString, b. exact Hb.
    + intros H. apply orb_prop in H. destruct H as [H|H].
      * apply prefix_app in H. destruct H as (b & Hb). exists EmptyString, b. exact Hb.
      * destruct (IH H) as (a & b & ->). exists (String c a), b. reflexivity.
  - intros (a & b & ->). induction a as [|c a IH].
    + assert (Hp : prefix q (q ++ b) = true) by (apply prefix_app; eauto).
      change (EmptyString ++ q ++ b) with (q ++ b).
      destruct (q ++ b); cbn [includes]; rewrite Hp; reflexivity.
    + change (String c a ++ q ++ b) with (String c (a ++ q ++ b)).
      cbn [includes]. rewrite IH. apply orb_true_r.
Qed.

(** X14.  Containment is occurrence: a painting with a text title passes
    the title test exactly when its title in lower case can be split around
    the query in lower case; a colour entry passes the colour test exactly
    when its trimmed lower-case name can be split around the query in lower
    case. *)
Theorem containing_is_occurring text p t :
  field "title" p = VStr t ->
  (titleContains text p = true <->
   exists before rest, toLowerCase t = before ++ toLowerCase text ++ rest) /\
  (forall color,
     colorNameMatches text color = true <->
     exists before rest, colorName color = before ++ toLowerCase text ++ rest).
Proof.
  intros Ht. split.
  - unfold titleContains. rewrite Ht. apply includes_spec.
  - intros color. unfold colorNameMatches. apply includes_spec.
Qed.

Lemma containing_is_occurring_witness :
  titleContains "flow" sunflowers = true <->
  exists before rest, toLowerCase "Sunflowers" = before ++ toLowerCase "flow" ++ rest.
Proof.
  apply (proj1 (containing_is_occurring "flow" sunflowers "Sunflowers" eq_refl)).
Defined.

(* ===================================================================== *)
(** * Plain decimal ids                                                   *)
(* ===================================================================== *)

Lemma spanDigits_all_cons c r :
  spanDigits 10 (String c r) = (String c r, EmptyString) ->
  isDigit c = true /\ spanDigits 10 r = (r, EmptyString).
Proof.
  simpl. rewrite isRadixDigit_10. destruct (isDigit c); [|discriminate].
  destruct (spanDigits 10 r) as [d rest]. intros [= -> ->]. auto.
Qed.

Lemma isDigit_not_white c : isDigit c = true -> isWhiteSpace c = false.
Proof. destruct c as [[] [] [] [] [] [] [] []]; try discriminate; reflexivity. Qed.

Lemma trimEnd_digits d : spanDigits 10 d = (d, EmptyString) -> trimEnd d = d.
Proof.
  induction d as [|c d IH]; [reflexivity|].
  intros H. apply spanDigits_all_cons in H. destruct H as [Hc Hd].
  simpl. rewrite (IH Hd), (isDigit_not_white c Hc). destruct d; reflexivity.
Qed.

Lemma unsignedDecimal_digits d :
  spanDigits 10 d = (d, EmptyString) -> d <> EmptyString ->
  unsignedDecimal false d =
  if digitsValue 10 0 d =? 0 then zero false else ofZ (digitsValue 10 0 d).
Proof.
  intros Hs Hne. unfold unsignedDecimal.
  destruct (d =? "Infinity")%string eqn:Hinf.
  - apply String.eqb_eq in Hinf. subst d. discriminate.
  - rewrite Hs. destruct d as [|c d]; [congruence|].
    cbn [exponentPart String.length]. rewrite append_empty_r.
    unfold ofDecimal. simpl (0 <=? 0 - Z.of_nat 0). simpl (0 - Z.of_nat 0).
    change (10 ^ 0) with 1. rewrite Z.mul_1_r. reflexivity.
Qed.

(** X15.  On a plain run of decimal digits [Number] and [parseInt] read the
    same Number: the painting-by-id route and the routes that use
    [parseInt] look for the same id. *)
Theorem plain_ids_are_read_alike d u key :
  isDigits d = true ->
  StringToNumber d = parseIntString d 10 /\
  numberParam (request1 u key d) key = intParam (request1 u key d) key.
Proof.
  intros Hd. destruct (isDigits_span d Hd) as [Hs Hne].
  assert (H : StringToNumber d = parseIntString d 10).
  { destruct d as [|c d]; [congruence|].
    destruct (spanDigits_all_cons c d Hs) as [Hc Hd'].
    rewrite (parseIntString_digit_first c d Hc), Hs. cbn [fst].
    rewrite <- (unsignedDecimal_digits (String c d) Hs Hne).
    unfold StringToNumber, trim.
    assert (Hts : trimStart (String c d) = String c d).
    { simpl. rewrite (isDigit_not_white c Hc). reflexivity. }
    rewrite Hts, (trimEnd_digits _ Hs).
    destruct d as [|x d].
    - destruct c as [[] [] [] [] [] [] [] []]; try discriminate Hc; reflexivity.
    - destruct (spanDigits_all_cons x d Hd') as [Hx _].
      destruct c as [[] [] [] [] [] [] [] []]; try discriminate Hc; try reflexivity.
      destruct x as [[] [] [] [] [] [] [] []]; try discriminate Hx; reflexivity. }
  split; [exact H|].
  unfold numberParam, intParam. rewrite param_request1. exact H.
Qed.

Lemma plain_ids_are_read_alike_witness :
  StringToNumber "0042" = parseIntString "0042" 10 /\
  numberParam (request1 "/api/painting/0042" "paintingID" "0042") "paintingID" =
  intParam (request1 "/api/painting/0042" "paintingID" "0042") "paintingID".
Proof.
  apply (plain_ids_are_read_alike "0042" "/api/painting/0042" "paintingID"). reflexivity.
Defined.

(* ===================================================================== *)
(** * Whole datasets and empty datasets                                   *)
(* ===================================================================== *)

(** X16.  The routes without a parameter serve the array of their file as
    it is, whatever the request carries, and answer 404 when the array is
    empty: artists from [artists.json], galleries from [galleries.json],
    paintings from [nested.json]. *)
Theorem whole_dataset_routes h data req :
  let answer := Some (match data with [] => NotFound | _ => Found (VArr data) end) in
  (dataset h fileArtist = Ok (VArr data) -> outcome (respond getArtists h req) = answer) /\
  (dataset h fileGallery = Ok (VArr data) -> outcome (respond getGalleries h req) = answer) /\
  (dataset h filePaintings = Ok (VArr data) -> outcome (respond getPaintings h req) = answer).
Proof.
  intros answer. repeat split; intros Hd;
    apply (answer_of_list _ _ selectAll _ req _ data Hd eq_refl).
Qed.

Lemma whole_dataset_routes_witness :
  outcome (respond getArtists museum (request1 "/api/artists" "country" "france")) =
    Some (Found (VArr [monet; vanGogh])) /\
  outcome (respond getPaintings (serving [(filePaintings, VArr [])])
             {| url := "/api/paintings"; params := [] |}) = Some NotFound.
Proof.
  split.
  - apply (proj1 (whole_dataset_routes museum [monet; vanGogh]
                    (request1 "/api/artists" "country" "france"))). reflexivity.
  - apply (proj2 (proj2 (whole_dataset_routes (serving [(filePaintings, VArr [])]) []
                           {| url := "/api/paintings"; params := [] |}))). reflexivity.
Defined.

(** X17.  On an empty dataset every route that selects answers 404: the
    routes that read a number do so on every request, the routes that read
    a text when the request carries it. *)
Theorem an_empty_dataset_is_not_found h req :
  (dataset h filePaintings = Ok (VArr []) ->
     outcome (respond getPaintingById h req) = Some NotFound /\
     outcome (respond getPaintingsByGallery h req) = Some NotFound /\
     outcome (respond getPaintingsByArtist h req) = Some NotFound /\
     outcome (respond getPaintingsByYear h req) = Some NotFound /\
     (forall text, param req "text" = VStr text ->
        outcome (respond getPaintingsByTitle h req) = Some NotFound) /\
     (forall name, param req "name" = VStr name ->
        outcome (respond getPaintingsByColor h req) = Some NotFound)) /\
  (dataset h fileArtist = Ok (VArr []) ->
     forall country, param req "country" = VStr country ->
       outcome (respond getArtistsByCountry h req) = Some NotFound) /\
  (dataset h fileGallery = Ok (VArr []) ->
     forall country, param req "country" = VStr country ->
       outcome (respond getGalleriesByCountry h req) = Some NotFound).
Proof.
  split; [|split].
  - intros Hd. repeat split.
    + unfold respond. rewrite getPaintingById_pipeline.
      rewrite (answer_of_selection _ _ _ _ _ _ VUndefined Hd); reflexivity.
    + unfold respond. rewrite getPaintingsByGallery_pipeline.
      apply (answer_of_list _ _ _ _ _ _ [] Hd). reflexivity.
    + apply (answer_of_list _ _ paintingsByArtist _ _ _ [] Hd).
      unfold paintingsByArtist. rewrite parseInt_param. reflexivity.
    + apply (answer_of_list _ _ paintingsByYear _ _ _ [] Hd).
      unfold paintingsByYear. rewrite !parseInt_param. reflexivity.
    + intros text Ht. apply (answer_of_list _ _ paintingsByTitle _ _ _ [] Hd).
      unfold paintingsByTitle. rewrite Ht. reflexivity.
    + intros name Hn. apply (answer_of_list _ _ paintingsByColor _ _ _ [] Hd).
      unfold paintingsByColor. rewrite Hn. reflexivity.
  - intros Hd country Hc. apply (answer_of_list _ _ artistsByCountry _ _ _ [] Hd).
    unfold artistsByCountry. rewrite Hc. reflexivity.
  - intros Hd country Hc. apply (answer_of_list _ _ galleriesByCountry _ _ _ [] Hd).
    unfold galleriesByCountry. rewrite Hc. reflexivity.
Qed.

Lemma an_empty_dataset_is_not_found_witness :
  let h := serving [(fileArtist, VArr []); (filePaintings, VArr [])] in
  outcome (respond getPaintingsByYear h (yearRequest "/api/painting/year/1800/2000" "1800" "2000")) =
    Some NotFound /\
  outcome (respond getArtistsByCountry h (request1 "/api/artists/france" "country" "france")) =
    Some NotFound.
Proof.
  split.
  - destruct (an_empty_dataset_is_not_found
                (serving [(fileArtist, VArr []); (filePaintings, VArr [])])
                (yearRequest "/api/painting/year/1800/2000" "1800" "2000")) as (H & _ & _).
    destruct (H eq_refl) as (_ & _ & _ & Hy & _). exact Hy.
  - destruct (an_empty_dataset_is_not_found
                (serving [(fileArtist, VArr []); (filePaintings, VArr [])])
                (request1 "/api/artists/france" "country" "france")) as (_ & H & _).
    apply (H eq_refl "france"). reflexivity.
Defined.

(* ===================================================================== *)
(** * One file per request                                                *)
(* ===================================================================== *)

(** X18.  The pipeline reads one file and parses its text, nothing else of
    the host: two hosts with the same script directory that agree on that
    file and on the parse of its text get the same result, response and
    console. *)
Theorem the_pipeline_reads_one_file h1 h2 directory filename f errorMessage req w :
  dirname h1 = dirname h2 ->
  fs_readFile h1 (path_join (dirname h1) directory filename) =
  fs_readFile h2 (path_join (dirname h1) directory filename) ->
  (forall data,
     fs_readFile h1 (path_join (dirname h1) directory filename) = Ok data ->
     JSON_parse h1 data = JSON_parse h2 data) ->
  handleApiRequest h1 directory filename f errorMessage req w =
  handleApiRequest h2 directory filename f errorMessage req w.
Proof.
  intros Hdir Hread Hparse. rewrite !handleApiRequest_run. unfold selected.
  rewrite <- Hdir, <- Hread.
  destruct (fs_readFile h1 _) as [data|] eqn:Hr; simpl; [|reflexivity].
  rewrite <- (Hparse data eq_refl). reflexivity.
Qed.

Lemma the_pipeline_reads_one_file_witness :
  getArtists museum {| url := "/api/artists"; params := [] |} initial =
  getArtists (serving [(fileArtist, VArr [monet; vanGogh])])
    {| url := "/api/artists"; params := [] |} initial.
Proof.
  apply (the_pipeline_reads_one_file museum (serving [(fileArtist, VArr [monet; vanGogh])])
           "/srv/app" fileArtist selectAll "No artists found"
           {| url := "/api/artists"; params := [] |} initial).
  - reflexivity.
  - reflexivity.
  - intros data [= <-]. reflexivity.
Defined.

(* ===================================================================== *)
(** * Parameters that are not numbers                                     *)
(* ===================================================================== *)
















(* ===================================================================== *)
(** * Letter case beyond Latin-1                                          *)
(* ===================================================================== *)

(** On words of ASCII letters the two models of [toLowerCase] agree. *)
Lemma Wide_toLowerCase_ascii s :
  Wide.lettersOnly (Wide.ofString s) = true ->
  Wide.toLowerCase (Wide.ofString s) = Wide.ofString (toLowerCase s).
Proof.
  unfold Wide.toLowerCase. generalize false as preceded.
  induction s as [|c s IH]; intros preceded H; [reflexivity|].
  unfold Wide.ofString in *. simpl in H. apply andb_prop in H. destruct H as [Hc Hs].
  simpl. rewrite (IH true Hs). f_equal.
  destruct c as [[] [] [] [] [] [] [] []]; try discriminate Hc;
    destruct (list_ascii_of_string s); reflexivity.
Qed.

(** Parameters with the same lower case select the same. *)
Lemma Wide_same_lower_case data c1 c2 :
  Wide.toLowerCase c1 = Wide.toLowerCase c2 ->
  Wide.artistsByCountry data (Wide.VStr c1) = Wide.artistsByCountry data (Wide.VStr c2) /\
  Wide.galleriesByCountry data (Wide.VStr c1) = Wide.galleriesByCountry data (Wide.VStr c2).
Proof.
  intros H. unfold Wide.artistsByCountry, Wide.galleriesByCountry. simpl. rewrite H.
  split; reflexivity.
Qed.

(** C6 (as stated) fails beyond Latin-1.  The words of capital alpha and
    sigma (U+0391 U+03A3) and of small alpha and sigma (U+03B1 U+03C3)
    differ in letter case only, but the capital sigma ends its word and
    lowers to the final sigma U+03C2: an artist, or a gallery, of country
    U+03B1 U+03C3 is selected for the second parameter and not for the
    first. *)
Lemma final_sigma_depends_on_case :
  let upper := [913; 931] in
  let lower := [945; 963] in
  let artist := Wide.VObj [("Nationality", Wide.VStr lower)] in
  let gallery := Wide.VObj [("GalleryCountry", Wide.VStr lower)] in
  Wide.lettersOnly upper = true /\
  Wide.lettersOnly lower = true /\
  Wide.differOnlyInCase upper lower = true /\
  Wide.toLowerCase upper = [945; 962] /\
  Wide.toLowerCase lower = [945; 963] /\
  Wide.artistsByCountry (Wide.VArr [artist]) (Wide.VStr lower) = Ok (Wide.VArr [artist]) /\
  Wide.artistsByCountry (Wide.VArr [artist]) (Wide.VStr upper) = Ok (Wide.VArr []) /\
  Wide.galleriesByCountry (Wide.VArr [gallery]) (Wide.VStr lower) = Ok (Wide.VArr [gallery]) /\
  Wide.galleriesByCountry (Wide.VArr [gallery]) (Wide.VStr upper) = Ok (Wide.VArr []).
Proof.
  vm_compute. repeat split.
Qed.
